(** * Reconciliation of spreadsheet transactions against database records

    A shallow embedding of the [/reconcile] handler of [app.py] and of the
    fragment of pandas it drives: a frame built from the uploaded workbook is
    joined with a frame built from the posted JSON records on the composite
    key (id, reference); the joined rows are split by boolean masks into
    reconciled rows, amount mismatches and rows present on one side only.

    What is taken as given: the decoding of the HTTP form, [json.loads] and
    [pd.read_excel]. A request is described by what these produce.  Cells are
    integers, strings or the missing value; they carry no dtype, so the
    difference between 100 and 100.0 and pandas' refusal to join a numeric key
    column with a string one are outside the embedding. *)

From stdpp Require Import gmap strings list fin_maps.
From Stdlib Require Import ZArith.

Local Open Scope Z_scope.
Set Warnings "-clear-no-such-hyp".

(** ** Cells, rows, frames *)

(** A cell of a frame, or a scalar of a JSON record. [VNaN] stands for every
    missing value: an empty spreadsheet cell, a JSON null, a key a record does
    not have once the records are put in a frame. *)
Inductive value :=
  | VNum (z : Z)
  | VStr (s : string)
  | VNaN.

#[global] Instance value_eq_dec : EqDecision value.
Proof. solve_decision. Defined.

(** A row is a dict from column label to cell: what [to_dict(orient='records')]
    yields for it, and what a JSON record of [db_data] is. *)
Abbreviation row := (gmap string value).

Definition cell (r : row) (c : string) : value := default VNaN (r !! c).

Record DataFrame := { columns : list string; rows : list row }.

(** Elementwise [==] of two columns, at one position. A missing value equals
    nothing, itself included; a number never equals a string. [!=] is the
    negation. *)
Definition py_eq (a b : value) : bool :=
  match a, b with
  | VNum x, VNum y => bool_decide (x = y)
  | VStr s, VStr t => bool_decide (s = t)
  | _, _ => false
  end.

Definition py_ne (a b : value) : bool := negb (py_eq a b).

(** [pd.DataFrame(records)]: the labels are the keys met in the records, and a
    record without some label reads as missing there (see [cell]). *)
Definition DataFrame_of_records (records : list row) : DataFrame :=
  {| columns := elements (⋃ (dom <$> records) : gset string);
     rows := records |}.

(** [df[labels]]: only the listed columns are kept. *)
Definition select_cells (labels : list string) (r : row) : row :=
  list_to_map ((λ c, (c, cell r c)) <$> labels).

Definition take_columns (labels : list string) (df : DataFrame) : DataFrame :=
  {| columns := labels; rows := select_cells labels <$> rows df |}.

(** [df[mask]] for a mask computed row by row. *)
Definition where_ (mask : row → bool) (df : DataFrame) : DataFrame :=
  {| columns := columns df; rows := List.filter mask (rows df) |}.

(** [df[label] = v] for a scalar [v]. *)
Definition assign (label : string) (v : value) (df : DataFrame) : DataFrame :=
  {| columns := if decide (label ∈ columns df) then columns df
                else columns df ++ [label];
     rows := insert label v <$> rows df |}.

(** [pd.concat(frames, ignore_index=True)] for frames with the same labels,
    which is how the handler calls it. *)
Definition pd_concat (frames : list DataFrame) : DataFrame :=
  {| columns := remove_dups (frames ≫= columns);
     rows := frames ≫= rows |}.

(** [df.drop(columns=[label])]. *)
Definition drop_column (label : string) (df : DataFrame) : DataFrame :=
  {| columns := filter (λ c, c ≠ label) (columns df);
     rows := delete label <$> rows df |}.

Definition to_dict (df : DataFrame) : list row := rows df.

(** ** The outer join *)

Definition on_keys : list string := ["id"; "reference"].

Definition key := (value * value)%type.

(** Missing key cells compare equal to each other in a join, unlike in [==]. *)
Definition key_of (r : row) : key := (cell r "id", cell r "reference").

(** The join pairs positions of the two frames; a row of one frame without a
    partner is paired with nothing. *)
Inductive join_row :=
  | Both (l r : row)
  | LeftOnly (l : row)
  | RightOnly (r : row).

#[global] Instance join_row_eq_dec : EqDecision join_row.
Proof. solve_decision. Defined.

Definition join_key (j : join_row) : key :=
  match j with
  | Both l _ => key_of l
  | LeftOnly l => key_of l
  | RightOnly r => key_of r
  end.

Definition left_of (j : join_row) : option row :=
  match j with Both l _ | LeftOnly l => Some l | RightOnly _ => None end.

Definition right_of (j : join_row) : option row :=
  match j with Both _ r | RightOnly r => Some r | LeftOnly _ => None end.

(** The distinct keys in the order in which they are first met; [seen] are the
    keys met so far. *)
Fixpoint factorize (seen : list key) (ks : list key) : list key :=
  match ks with
  | [] => []
  | k :: ks' =>
      if decide (k ∈ seen) then factorize seen ks'
      else k :: factorize (k :: seen) ks'
  end.

Definition with_key (k : key) (l : list row) : list row :=
  filter (λ r, key_of r = k) l.

(** The rows of one key: every left row with every right row, left rows
    outermost; or the rows of the side that has the key alone. *)
Definition join_group (left right : list row) (k : key) : list join_row :=
  match with_key k left, with_key k right with
  | ls, [] => LeftOnly <$> ls
  | [], rs => RightOnly <$> rs
  | ls, rs => l ← ls; Both l <$> rs
  end.

(** Full outer join of the positions, key group after key group, the keys of
    the left frame first. (Recent pandas versions sort the key groups instead;
    nothing below depends on their order.) *)
Definition outer_join (left right : list row) : list join_row :=
  factorize [] ((key_of <$> left) ++ (key_of <$> right)) ≫= join_group left right.

(** ** Columns of the merged frame *)

Inductive exn := IndexError | ValueError | MergeError.

Definition non_key (cols : list string) : list string :=
  filter (λ c, c ∉ on_keys) cols.

(** A label carried by both frames, join keys apart, gets the suffix of its
    side. *)
Definition suffixed (other : list string) (suffix c : string) : string :=
  if decide (c ∈ non_key other) then c +:+ suffix else c.

Definition indicator (j : join_row) : string :=
  match j with
  | Both _ _ => "both"
  | LeftOnly _ => "left_only"
  | RightOnly _ => "right_only"
  end.

Section Merge.
Variables (lsuffix rsuffix : string) (lcols rcols : list string).

Definition left_labels : list string := suffixed rcols lsuffix <$> lcols.
Definition right_labels : list string := suffixed lcols rsuffix <$> non_key rcols.

(** What stops the merge, for frames whose own labels are distinct: a label
    reserved for the indicator raises ValueError; a suffix that produces a
    label twice on one side raises MergeError. A label produced on both
    sides is let through by pandas and gives a frame with that label twice,
    on which selecting the column no longer gives a column and the
    handler's comparison raises ValueError; rows here hold a label once, so
    that case is reported by the merge as well. *)
Definition merge_refused : option exn :=
  if bool_decide (Exists (λ c, c ∈ lcols ++ rcols)
                    ["_left_indicator"; "_right_indicator"; "_merge"])
  then Some ValueError
  else if bool_decide (NoDup left_labels ∧ NoDup right_labels)
  then if bool_decide (Forall (λ c, c ∉ left_labels) right_labels)
       then None else Some ValueError
  else Some MergeError.

(** The cells of a joined row: the left columns, the right columns other
    than the join keys, the indicator. A key cell comes from the left row
    when there is one, from the right row otherwise. *)
Definition left_cell (j : join_row) (c : string) : value :=
  match j with
  | Both l _ | LeftOnly l => cell l c
  | RightOnly r => if decide (c ∈ on_keys) then cell r c else VNaN
  end.

Definition right_cell (j : join_row) (c : string) : value :=
  match j with
  | Both _ r | RightOnly r => cell r c
  | LeftOnly _ => VNaN
  end.

Definition joined (j : join_row) : row :=
  <["_merge" := VStr (indicator j)]>
    (list_to_map ((λ c, (suffixed rcols lsuffix c, left_cell j c)) <$> lcols)
     ∪ list_to_map ((λ c, (suffixed lcols rsuffix c, right_cell j c)) <$> non_key rcols)).
End Merge.

(** [left.merge(right, on=['id','reference'], suffixes=(lsuffix, rsuffix),
    how='outer', indicator=True)]. *)
Definition merge (lsuffix rsuffix : string) (left right : DataFrame)
  : exn + DataFrame :=
  match merge_refused lsuffix rsuffix (columns left) (columns right) with
  | Some e => inl e
  | None =>
      inr {| columns := left_labels lsuffix (columns left) (columns right)
                        ++ right_labels rsuffix (columns left) (columns right)
                        ++ ["_merge"];
             rows := joined lsuffix rsuffix (columns left) (columns right)
                     <$> outer_join (rows left) (rows right) |}
  end.

(** ** The request and the response *)

Definition REQUIRED_COLUMNS : list string := ["id"; "reference"; "amount"].

(** Supported file extensions and the engine for each. *)
Definition FILE_ENGINES : gmap string string :=
  {[ ".xls" := "openpyxl"; ".xlsx" := "openpyxl"; ".xlsm" := "openpyxl" ]}.

(** What [pd.read_excel] makes of the saved upload. *)
Inductive workbook :=
  | Sheet (df : DataFrame)
  | BadZipFile
  | Unreadable (message : string).

(** The uploaded file: the lower-cased extension of the path it is saved
    under, and its content. *)
Record upload := { file_extension : string; content : workbook }.

(** The form field [db_data]: absent or empty, not JSON, or a JSON array of
    records. *)
Inductive form_field :=
  | Absent
  | NotJson
  | Records (records : list row).

Record request := { file : option upload; db_data : form_field }.

(** [Ok] is the 200 response [{reconciled, unreconciled}]; [BadRequest] a 400
    with the given [error]; [ServerError e] the 500 the handler builds from an
    exception it caught; [Unhandled e] an exception that leaves the handler. *)
Inductive response :=
  | Ok (reconciled unreconciled : list row)
  | BadRequest (error : string)
  | ServerError (e : exn)
  | Unhandled (e : exn).

Definition has_required (cols : string → Prop) `{!∀ c, Decision (cols c)} : bool :=
  bool_decide (Forall cols REQUIRED_COLUMNS).

Definition both_mask (r : row) : bool := py_eq (cell r "_merge") (VStr "both").

Definition classify (merged : DataFrame) : response :=
  let mismatches :=
    where_ (λ r, both_mask r && py_ne (cell r "amount_excel") (cell r "amount_db")) merged in
  let mismatches := assign "Mismatch Reason" (VStr "Amount Mismatch") mismatches in
  let only_in_excel :=
    where_ (λ r, py_eq (cell r "_merge") (VStr "left_only")) merged in
  let only_in_excel := assign "Mismatch Reason" (VStr "Only in Excel") only_in_excel in
  let only_in_db :=
    where_ (λ r, py_eq (cell r "_merge") (VStr "right_only")) merged in
  let only_in_db := assign "Mismatch Reason" (VStr "Only in DB") only_in_db in
  let result := pd_concat [mismatches; only_in_excel; only_in_db] in
  let result := drop_column "_merge" result in
  let reconciled :=
    where_ (λ r, both_mask r && py_eq (cell r "amount_excel") (cell r "amount_db")) merged in
  let unreconciled := result in
  Ok (to_dict reconciled) (to_dict unreconciled).

Definition reconcile (req : request) : response :=
  match file req with
  | None => BadRequest "No file uploaded"
  | Some f =>
  match db_data req with
  | Absent => BadRequest "Missing db_data. Expected JSON format."
  | NotJson => BadRequest "Invalid JSON format for db_data"
  | Records db_data =>
  match db_data with
  | [] => Unhandled IndexError
  | first :: _ =>
  if negb (has_required (λ col, col ∈ dom first)) then
    BadRequest "Invalid DB data format. Expected columns: id, reference, amount"
  else if bool_decide (FILE_ENGINES !! file_extension f = None) then
    BadRequest ("Unsupported file format: " +:+ file_extension f)
  else
  match content f with
  | BadZipFile => BadRequest "The file is not a valid Excel file or is corrupted."
  | Unreadable e =>
      BadRequest ("An error occurred while reading the Excel file: " +:+ e)
  | Sheet df_excel =>
  if negb (has_required (λ col, col ∈ columns df_excel)) then
    BadRequest "Invalid Excel format. Expected columns: id, reference, amount"
  else
    let df_excel := take_columns REQUIRED_COLUMNS df_excel in
    let df_db := DataFrame_of_records db_data in
    match merge "_excel" "_db" df_excel df_db with
    | inl e => ServerError e
    | inr merged => classify merged
    end
  end end end end.

(** ** The classification, in the words of the specification *)

Inductive category :=
  | Reconciled
  | AmountMismatch
  | OnlyInSpreadsheet
  | OnlyInReference.

#[global] Instance category_eq_dec : EqDecision category.
Proof. solve_decision. Defined.

Definition amount (r : row) : value := cell r "amount".

Definition category_of (j : join_row) : category :=
  match j with
  | Both l r => if py_eq (amount l) (amount r) then Reconciled else AmountMismatch
  | LeftOnly _ => OnlyInSpreadsheet
  | RightOnly _ => OnlyInReference
  end.

(** The rows the handler joins: the rows of the sheet, cut down to the three
    columns, and the reference records. *)
Definition spreadsheet_rows (req : request) : list row :=
  match file req with
  | Some {| content := Sheet df |} => rows (take_columns REQUIRED_COLUMNS df)
  | _ => []
  end.

Definition reference_rows (req : request) : list row :=
  match db_data req with Records records => records | _ => [] end.

Definition reference_columns (req : request) : list string :=
  columns (DataFrame_of_records (reference_rows req)).

Definition join_rows (req : request) : list join_row :=
  outer_join (spreadsheet_rows req) (reference_rows req).

Definition in_category (c : category) (req : request) : list join_row :=
  filter (λ j, category_of j = c) (join_rows req).

(** The joined rows a given row of one side takes part in. *)
Definition from_left (l : row) (js : list join_row) : list join_row :=
  filter (λ j, left_of j = Some l) js.

Definition from_right (r : row) (js : list join_row) : list join_row :=
  filter (λ j, right_of j = Some r) js.

(** The row of the merged frame that a joined row becomes. *)
Definition merged_row (req : request) : join_row → row :=
  joined "_excel" "_db" REQUIRED_COLUMNS (reference_columns req).

(** An unreconciled row as it is returned: the reason added, the indicator
    dropped. *)
Definition annotated (reason : string) (r : row) : row :=
  delete "_merge" (<["Mismatch Reason" := VStr reason]> r).

(** The row returned for a joined row. *)
Definition output_row (req : request) (j : join_row) : row :=
  match category_of j with
  | Reconciled => merged_row req j
  | AmountMismatch => annotated "Amount Mismatch" (merged_row req j)
  | OnlyInSpreadsheet => annotated "Only in Excel" (merged_row req j)
  | OnlyInReference => annotated "Only in DB" (merged_row req j)
  end.

(** The response: the reconciled pairings, then the unreconciled rows category
    by category, each with the reason of its category. *)
Definition in_reason (reason : string) (c : category) (req : request) : list row :=
  annotated reason ∘ merged_row req <$> in_category c req.

Definition classification (req : request) : response :=
  Ok (merged_row req <$> in_category Reconciled req)
     (in_reason "Amount Mismatch" AmountMismatch req
      ++ in_reason "Only in Excel" OnlyInSpreadsheet req
      ++ in_reason "Only in DB" OnlyInReference req).

(** Every row of either side is returned, and in one category only. *)
Definition in_one_category (req : request) : Prop :=
  (∀ l, l ∈ spreadsheet_rows req →
     ∃ c, from_left l (join_rows req) ≠ []
          ∧ ∀ j, j ∈ from_left l (join_rows req) → category_of j = c)
  ∧ (∀ r, r ∈ reference_rows req →
     ∃ c, from_right r (join_rows req) ≠ []
          ∧ ∀ j, j ∈ from_right r (join_rows req) → category_of j = c).

(** A failure the handler describes itself, as opposed to a classification or
    to an exception. *)
Definition described_failure (resp : response) : Prop :=
  ∃ error, resp = BadRequest error.

(** Labels a reference record may not use: the merge makes them itself. *)
Definition reserved_labels : list string :=
  ["amount_excel"; "amount_db"; "_merge"; "_left_indicator"; "_right_indicator"].

(** ** Requests used as examples *)

Definition xlsx (df : DataFrame) (db : list row) : request :=
  {| file := Some {| file_extension := ".xlsx"; content := Sheet df |};
     db_data := Records db |}.

Definition record (i : Z) (ref : string) (a : Z) : row :=
  {[ "id" := VNum i; "reference" := VStr ref; "amount" := VNum a ]}.

Definition sheet (rs : list row) : DataFrame :=
  {| columns := ["id"; "reference"; "amount"]; rows := rs |}.

Definition both_row (i : Z) (ref : string) (a b : Z) : row :=
  {[ "id" := VNum i; "reference" := VStr ref; "amount_excel" := VNum a;
     "amount_db" := VNum b; "_merge" := VStr "both" ]}.

Definition unreconciled_row (i : Z) (ref : string) (a b : value)
    (reason : string) : row :=
  {[ "id" := VNum i; "reference" := VStr ref; "amount_excel" := a;
     "amount_db" := b; "Mismatch Reason" := VStr reason ]}.

(** The first scenario of the specification. *)
Definition scenario_1 : request :=
  xlsx (sheet [record 1 "A" 100]) [record 1 "A" 100].

(** Keys that are unique on each side: a reconciled pairing, a mismatch, a row
    of each side alone. *)
Definition unique_keys : request :=
  xlsx (sheet [record 1 "A" 100; record 2 "B" 50; record 4 "D" 7])
       [record 1 "A" 100; record 3 "C" 10; record 4 "D" 8].

(** One reference record, met by two spreadsheet rows with its key. *)
Definition key_twice : request :=
  xlsx (sheet [record 1 "A" 100; record 1 "A" 150]) [record 1 "A" 100].

(** A key that occurs twice on each side. *)
Definition key_twice_on_both_sides : request :=
  xlsx (sheet [record 1 "A" 100; record 1 "A" 150; record 2 "B" 5])
       [record 1 "A" 100; record 1 "A" 150].

(** A sheet with the three columns and no row, against three reference
    records, two of them with the same key and one with a further field. *)
Definition empty_sheet : request :=
  xlsx (sheet [])
       [record 1 "A" 100; <["note" := VStr "late"]> (record 2 "B" 50);
        record 1 "A" 120].

(** The second reference record has no amount. *)
Definition later_record_incomplete : request :=
  xlsx (sheet [record 1 "A" 100])
       [record 1 "A" 100; {[ "id" := VNum 2; "reference" := VStr "B" ]}].

(** The first reference record has no amount. *)
Definition first_record_incomplete : request :=
  xlsx (sheet [record 1 "A" 100])
       [{[ "id" := VNum 2; "reference" := VStr "B" ]}; record 1 "A" 100].

(** A sheet without an id column. *)
Definition sheet_without_id : request :=
  xlsx {| columns := ["reference"; "amount"];
          rows := [{[ "reference" := VStr "A"; "amount" := VNum 100 ]}] |}
       [record 1 "A" 100].


(** Reference records with a fourth field, one of them unreconciled. *)
Definition reference_note : request :=
  xlsx (sheet [record 1 "A" 100])
       [<["note" := VStr "paid"]> (record 1 "A" 100);
        <["note" := VStr "late"]> (record 2 "B" 50)].

(** A reference record with a field named like the indicator. *)
Definition indicator_field : request :=
  xlsx (sheet []) [<["_merge" := VStr "x"]> (record 1 "A" 100)].

(** A spreadsheet row with an empty amount cell, and a reference record with a
    null amount, under the same key. *)
Definition amounts_missing : request :=
  xlsx (sheet [{[ "id" := VNum 1; "reference" := VStr "A"; "amount" := VNaN ]}])
       [{[ "id" := VNum 1; "reference" := VStr "A"; "amount" := VNaN ]}].

(** The same three records on both sides, one of them with a further field. *)
Definition same_records : request :=
  xlsx (sheet [record 1 "A" 100; record 2 "B" 50; record 3 "C" 10])
       [record 1 "A" 100; <["note" := VStr "late"]> (record 2 "B" 50);
        record 3 "C" 10].

(** The rows of [unique_keys] in another order, on both sides. *)
Definition unique_keys_shuffled : request :=
  xlsx (sheet [record 4 "D" 7; record 1 "A" 100; record 2 "B" 50])
       [record 3 "C" 10; record 4 "D" 8; record 1 "A" 100].

(** The returned rows that give a certain reason. *)
Definition with_reason (reason : string) (returned : list row) : list row :=
  filter (λ row, row !! "Mismatch Reason" = Some (VStr reason)) returned.

(** The form field holds records the first of which has the three fields. *)
Definition records_accepted (req : request) : Prop :=
  ∃ first rest, db_data req = Records (first :: rest)
                ∧ Forall (λ c, c ∈ dom first) REQUIRED_COLUMNS.

(** * Properties *)

(** ** The join *)

Lemma elem_of_factorize seen ks k :
  k ∈ factorize seen ks ↔ k ∈ ks ∧ k ∉ seen.
Proof.
  revert seen. induction ks as [|k' ks IH]; intros seen; simpl.
  - rewrite elem_of_nil. tauto.
  - case_decide; rewrite ?elem_of_cons, IH, ?not_elem_of_cons;
      destruct (decide (k = k')) as [->|]; intuition.
Qed.

Lemma NoDup_factorize seen ks : NoDup (factorize seen ks).
Proof.
  revert seen. induction ks as [|k ks IH]; intros seen; simpl.
  - constructor.
  - case_decide; [apply IH|]. constructor; [|apply IH].
    rewrite elem_of_factorize, not_elem_of_cons. tauto.
Qed.

Lemma elem_of_with_key k l r : r ∈ with_key k l ↔ r ∈ l ∧ key_of r = k.
Proof. unfold with_key. rewrite list_elem_of_filter. tauto. Qed.

Lemma elem_of_join_group left right k j :
  j ∈ join_group left right k ↔
  match j with
  | Both l r => (l ∈ left ∧ key_of l = k) ∧ (r ∈ right ∧ key_of r = k)
  | LeftOnly l => (l ∈ left ∧ key_of l = k) ∧ with_key k right = []
  | RightOnly r => (r ∈ right ∧ key_of r = k) ∧ with_key k left = []
  end.
Proof.
  unfold join_group. destruct j; rewrite <- !elem_of_with_key;
    destruct (with_key k left) as [|l0 ls], (with_key k right) as [|r0 rs];
    rewrite ?list_elem_of_bind; try setoid_rewrite list_elem_of_fmap;
    try setoid_rewrite elem_of_nil; naive_solver.
Qed.

Lemma join_group_key left right k j :
  j ∈ join_group left right k → join_key j = k.
Proof. rewrite elem_of_join_group. destruct j; naive_solver. Qed.

Lemma elem_of_outer_join left right j :
  j ∈ outer_join left right ↔ j ∈ join_group left right (join_key j).
Proof.
  unfold outer_join. rewrite list_elem_of_bind. split.
  - intros (k & Hj & _). by rewrite (join_group_key _ _ _ _ Hj).
  - intros Hj. exists (join_key j). split; [done|].
    rewrite elem_of_factorize, elem_of_app, !list_elem_of_fmap.
    split; [|apply not_elem_of_nil].
    apply elem_of_join_group in Hj. destruct j; naive_solver.
Qed.

Section Lists.
Context {A B : Type}.

Lemma filter_all (P : A → Prop) `{!∀ x, Decision (P x)} (l : list A) :
  Forall P l → filter P l = l.
Proof.
  induction 1 as [|x l Hx _ IH]; [done|].
  by rewrite filter_cons_True, IH.
Qed.

Lemma filter_none (P : A → Prop) `{!∀ x, Decision (P x)} (l : list A) :
  Forall (λ x, ¬ P x) l → filter P l = [].
Proof.
  induction 1 as [|x l Hx _ IH]; [done|].
  by rewrite filter_cons_False.
Qed.

(** A mask computed row by row selects the positions where it holds. *)
Lemma mask_filter (mask : A → bool) (P : A → Prop) `{!∀ x, Decision (P x)}
    (l : list A) :
  (∀ x, x ∈ l → mask x = true ↔ P x) → List.filter mask l = filter P l.
Proof.
  induction l as [|x l IH]; intros Hl; [done|]. simpl.
  rewrite filter_cons, IH by (intros; apply Hl; by right).
  specialize (Hl x (list_elem_of_here _ _)).
  destruct (mask x), (decide (P x)); naive_solver.
Qed.

Lemma filter_iff_in (P Q : A → Prop) `{!∀ x, Decision (P x)}
    `{!∀ x, Decision (Q x)} (l : list A) :
  (∀ x, x ∈ l → P x ↔ Q x) → filter P l = filter Q l.
Proof.
  induction l as [|x l IH]; intros Hl; [done|].
  rewrite !filter_cons, IH by (intros; apply Hl; by right).
  specialize (Hl x (list_elem_of_here _ _)).
  destruct (decide (P x)), (decide (Q x)); naive_solver.
Qed.

Lemma mask_fmap (f : A → B) (mask : B → bool) (P : A → Prop)
    `{!∀ x, Decision (P x)} (l : list A) :
  (∀ x, mask (f x) = true ↔ P x) → List.filter mask (f <$> l) = f <$> filter P l.
Proof.
  intros Hmask. induction l as [|x l IH]; [done|].
  rewrite fmap_cons, filter_cons. simpl. rewrite IH.
  specialize (Hmask x). destruct (mask (f x)), (decide (P x)); naive_solver.
Qed.

Lemma filter_fmap_swap (f : A → B) (P : B → Prop) `{!∀ y, Decision (P y)}
    (l : list A) :
  filter P (f <$> l) = f <$> filter (P ∘ f) l.
Proof.
  induction l as [|x l IH]; [done|]. rewrite fmap_cons, !filter_cons, IH.
  simpl. by destruct (decide (P (f x))).
Qed.
End Lists.

Lemma join_group_filter left right k k' :
  filter (λ j, join_key j = k) (join_group left right k')
  = if decide (k' = k) then join_group left right k' else [].
Proof.
  case_decide as Hk.
  - apply filter_all, Forall_forall. intros j Hj.
    by rewrite (join_group_key _ _ _ _ Hj).
  - apply filter_none, Forall_forall. intros j Hj.
    by rewrite (join_group_key _ _ _ _ Hj).
Qed.

Lemma join_group_no_key left right k :
  k ∉ key_of <$> left → k ∉ key_of <$> right → join_group left right k = [].
Proof.
  intros Hl Hr. unfold join_group.
  assert (∀ l, k ∉ key_of <$> l → with_key k l = []) as Hnone.
  { intros l Hk. apply filter_none, Forall_forall. intros r Hin ?.
    apply Hk, list_elem_of_fmap. eauto. }
  by rewrite (Hnone left), (Hnone right).
Qed.

(** The joined rows of one key are the rows of its group. *)
Lemma outer_join_with_key left right k :
  filter (λ j, join_key j = k) (outer_join left right) = join_group left right k.
Proof.
  unfold outer_join.
  pose proof (NoDup_factorize [] ((key_of <$> left) ++ (key_of <$> right))) as Hnd.
  assert (k ∉ factorize [] ((key_of <$> left) ++ (key_of <$> right))
          → join_group left right k = []) as Hout.
  { rewrite elem_of_factorize, elem_of_app. intros Hk.
    apply join_group_no_key; intros ?; apply Hk; (split; [|apply not_elem_of_nil]); tauto. }
  revert Hnd Hout.
  generalize (factorize [] ((key_of <$> left) ++ (key_of <$> right))).
  intros ks. induction ks as [|k' ks IH]; intros Hnd Hout.
  - rewrite Hout; [done|apply not_elem_of_nil].
  - apply NoDup_cons in Hnd as [Hk' Hnd].
    rewrite bind_cons, filter_app, join_group_filter. case_decide as Hk.
    + subst k'. replace (filter _ (ks ≫= _)) with (@nil join_row);
        [by rewrite app_nil_r|].
      symmetry. apply filter_none, Forall_forall. intros j Hj Hkey.
      apply list_elem_of_bind in Hj as (k'' & Hj & Hin).
      apply join_group_key in Hj. congruence.
    + simpl. apply IH; [done|]. intros Hnot. apply Hout.
      rewrite not_elem_of_cons. split; [congruence|done].
Qed.

Lemma left_not_dropped left right l :
  l ∈ left → ∃ j, j ∈ outer_join left right ∧ left_of j = Some l.
Proof.
  intros Hl. destruct (with_key (key_of l) right) as [|r rs] eqn:Hr.
  - exists (LeftOnly l). split; [|done].
    apply elem_of_outer_join, elem_of_join_group. by simpl.
  - exists (Both l r). split; [|done].
    apply elem_of_outer_join, elem_of_join_group. simpl.
    repeat split; try done; apply (elem_of_with_key (key_of l) right r);
      rewrite Hr; by left.
Qed.

Lemma right_not_dropped left right r :
  r ∈ right → ∃ j, j ∈ outer_join left right ∧ right_of j = Some r.
Proof.
  intros Hr. destruct (with_key (key_of r) left) as [|l ls] eqn:Hl.
  - exists (RightOnly r). split; [|done].
    apply elem_of_outer_join, elem_of_join_group. by simpl.
  - assert (l ∈ left ∧ key_of l = key_of r) as [??].
    { apply elem_of_with_key. rewrite Hl. by left. }
    exists (Both l r). split; [|done].
    apply elem_of_outer_join, elem_of_join_group. simpl. by rewrite H0.
Qed.

Lemma with_key_unique l rs :
  NoDup (key_of <$> rs) → l ∈ rs → with_key (key_of l) rs = [l].
Proof.
  unfold with_key. induction rs as [|x rs IH]; intros Hnd Hl.
  - by apply elem_of_nil in Hl.
  - rewrite fmap_cons in Hnd. apply NoDup_cons in Hnd as [Hx Hnd].
    apply elem_of_cons in Hl as [->|Hl].
    + rewrite filter_cons_True by done. f_equal.
      apply filter_none, Forall_forall. intros r Hr Hk.
      apply Hx. rewrite <- Hk. by apply list_elem_of_fmap_2.
    + rewrite filter_cons_False; [by apply IH|].
      intros Hk. apply Hx. rewrite Hk. by apply list_elem_of_fmap_2.
Qed.

Lemma with_key_at_most_one k rs :
  NoDup (key_of <$> rs) → with_key k rs = [] ∨ ∃ r, with_key k rs = [r].
Proof.
  intros Hnd. destruct (with_key k rs) as [|r rs'] eqn:Hk; [by left|right].
  assert (r ∈ rs ∧ key_of r = k) as [Hr <-].
  { apply elem_of_with_key. rewrite Hk. by left. }
  rewrite (with_key_unique r rs) in Hk by done. exists r. congruence.
Qed.

Lemma from_left_group left right l :
  from_left l (outer_join left right)
  = from_left l (join_group left right (key_of l)).
Proof.
  unfold from_left. rewrite <- outer_join_with_key, list_filter_filter.
  apply list_filter_iff. intros j. split; [|tauto].
  intros Hj. split; [done|]. by destruct j; simplify_eq/=.
Qed.

Lemma join_key_right left right j r :
  j ∈ outer_join left right → right_of j = Some r → join_key j = key_of r.
Proof.
  rewrite elem_of_outer_join, elem_of_join_group.
  destruct j; intros; simplify_eq/=; naive_solver.
Qed.

Lemma from_right_group left right r :
  from_right r (outer_join left right)
  = from_right r (join_group left right (key_of r)).
Proof.
  unfold from_right. rewrite <- outer_join_with_key, list_filter_filter.
  apply filter_iff_in. intros j Hin. split; [|tauto].
  intros Hj. split; [done|]. by eapply join_key_right.
Qed.

(** With keys that are unique on each side, a row takes part in one joined
    row. *)
Lemma from_left_once left right l :
  NoDup (key_of <$> left) → NoDup (key_of <$> right) → l ∈ left →
  ∃ j, from_left l (outer_join left right) = [j].
Proof.
  intros Hl Hr Hin. rewrite from_left_group. unfold join_group, from_left.
  rewrite (with_key_unique l left) by done.
  destruct (with_key_at_most_one (key_of l) right Hr) as [->|[r ->]]; simpl;
    rewrite filter_cons_True by done; eauto.
Qed.

Lemma from_right_once left right r :
  NoDup (key_of <$> left) → NoDup (key_of <$> right) → r ∈ right →
  ∃ j, from_right r (outer_join left right) = [j].
Proof.
  intros Hl Hr Hin. rewrite from_right_group. unfold join_group, from_right.
  rewrite (with_key_unique r right) by done.
  destruct (with_key_at_most_one (key_of r) left Hl) as [->|[l ->]]; simpl;
    rewrite filter_cons_True by done; eauto.
Qed.

(** ** The columns of the merged frame *)

Lemma elem_of_non_key cols c : c ∈ non_key cols ↔ (c ∉ on_keys) ∧ c ∈ cols.
Proof. unfold non_key. by rewrite list_elem_of_filter. Qed.

Section Joined.
Variable rcols : list string.
Hypothesis accepted : merge_refused "_excel" "_db" REQUIRED_COLUMNS rcols = None.
Hypothesis amount_col : "amount" ∈ rcols.

Local Abbreviation label := (suffixed REQUIRED_COLUMNS "_db").

Lemma left_labels_required :
  left_labels "_excel" REQUIRED_COLUMNS rcols = ["id"; "reference"; "amount_excel"].
Proof using amount_col.
  clear accepted.
  assert (∀ c, c ∈ on_keys → suffixed rcols "_excel" c = c) as Hkey.
  { intros c Hc. unfold suffixed. rewrite decide_False; [done|].
    rewrite elem_of_non_key. tauto. }
  unfold left_labels, REQUIRED_COLUMNS. rewrite !fmap_cons, fmap_nil.
  rewrite !Hkey by (unfold on_keys; set_solver).
  unfold suffixed. rewrite decide_True; [done|].
  rewrite elem_of_non_key. split; [compute_done|done].
Qed.

Lemma accepted_inv :
  ("_merge" ∉ rcols)
  ∧ NoDup (label <$> non_key rcols)
  ∧ Forall (λ c, c ∉ ["id"; "reference"; "amount_excel"]) (label <$> non_key rcols).
Proof using All.
  pose proof accepted as Hok. unfold merge_refused in Hok.
  rewrite left_labels_required in Hok.
  repeat case_bool_decide; try done. split_and!; [|tauto|done].
  intros Hin. apply H. rewrite !Exists_cons. do 2 right. left.
  rewrite elem_of_app. by right.
Qed.

Lemma label_amount : label "amount" = "amount_db".
Proof using Type. reflexivity. Qed.

Lemma label_other c : c ≠ "amount" → label c = c.
Proof using Type.
  intros Hc. unfold label, suffixed. rewrite decide_False; [done|].
  rewrite elem_of_non_key. unfold REQUIRED_COLUMNS, on_keys.
  rewrite !elem_of_cons, !elem_of_nil. tauto.
Qed.

Lemma left_part j :
  (list_to_map ((λ c, (suffixed rcols "_excel" c, left_cell j c))
                  <$> REQUIRED_COLUMNS) : row)
  = <["id" := left_cell j "id"]>
      (<["reference" := left_cell j "reference"]>
         (<["amount_excel" := left_cell j "amount"]> ∅)).
Proof using All.
  pose proof left_labels_required as Hl.
  unfold left_labels, REQUIRED_COLUMNS in *.
  rewrite !fmap_cons, fmap_nil in *. simplify_eq/=.
  by rewrite H, H0, H1.
Qed.

Lemma right_part j c :
  c ∈ rcols → c ∉ on_keys →
  (list_to_map ((λ c, (label c, right_cell j c)) <$> non_key rcols) : row)
    !! label c = Some (right_cell j c).
Proof using All.
  intros Hc Hk. destruct accepted_inv as (_ & Hnd & _).
  apply elem_of_list_to_map_1.
  - by rewrite <- list_fmap_compose.
  - apply (list_elem_of_fmap_2 (λ c, (label c, right_cell j c))).
    by apply elem_of_non_key.
Qed.

Local Abbreviation the_row := (joined "_excel" "_db" REQUIRED_COLUMNS rcols).

Lemma joined_indicator j : the_row j !! "_merge" = Some (VStr (indicator j)).
Proof using All. apply lookup_insert_eq. Qed.

Lemma joined_id j : the_row j !! "id" = Some (left_cell j "id").
Proof using All.
  unfold the_row, joined. rewrite lookup_insert_ne by done.
  apply lookup_union_Some_l. rewrite left_part. apply lookup_insert_eq.
Qed.

Lemma joined_reference j :
  the_row j !! "reference" = Some (left_cell j "reference").
Proof using All.
  unfold the_row, joined. rewrite lookup_insert_ne by done.
  apply lookup_union_Some_l. rewrite left_part.
  rewrite lookup_insert_ne by done. apply lookup_insert_eq.
Qed.

Lemma joined_amount_excel j :
  the_row j !! "amount_excel" = Some (left_cell j "amount").
Proof using All.
  unfold the_row, joined. rewrite lookup_insert_ne by done.
  apply lookup_union_Some_l. rewrite left_part.
  rewrite !lookup_insert_ne by done. apply lookup_insert_eq.
Qed.

Lemma joined_right j c :
  c ∈ rcols → c ∉ on_keys →
  the_row j !! label c = Some (right_cell j c).
Proof using All.
  intros Hc Hk. destruct accepted_inv as (Hm & _ & Hl).
  assert (label c ∈ label <$> non_key rcols) as Hin.
  { apply list_elem_of_fmap_2. by apply elem_of_non_key. }
  rewrite Forall_forall in Hl. specialize (Hl _ Hin).
  rewrite !not_elem_of_cons in Hl. destruct Hl as (? & ? & ? & _).
  unfold the_row, joined. rewrite lookup_insert_ne.
  - rewrite lookup_union_r; [by apply right_part|].
    rewrite left_part. by rewrite !lookup_insert_ne, lookup_empty.
  - intros Heq. destruct (decide (c = "amount")) as [->|Hne]; [done|].
    rewrite label_other in Heq by done. congruence.
Qed.

Lemma joined_amount_db j :
  the_row j !! "amount_db" = Some (right_cell j "amount").
Proof using All. rewrite <- label_amount. apply joined_right; [done|compute_done]. Qed.

Lemma joined_extra j c :
  c ∈ rcols → c ∉ REQUIRED_COLUMNS →
  the_row j !! c = Some (right_cell j c).
Proof using All.
  intros Hc Hr. unfold REQUIRED_COLUMNS in Hr.
  rewrite !not_elem_of_cons in Hr. destruct Hr as (? & ? & ? & _).
  rewrite <- (label_other c) at 1 by done. apply joined_right; [done|].
  unfold on_keys. rewrite !not_elem_of_cons. split_and!; [done..|apply not_elem_of_nil].
Qed.
End Joined.


Lemma NoDup_fmap_eq {A B} (f : A → B) (l : list A) x y :
  NoDup (f <$> l) → x ∈ l → y ∈ l → f x = f y → x = y.
Proof.
  induction l as [|z l IH]; [by intros _ ?%elem_of_nil|].
  rewrite fmap_cons, NoDup_cons, !elem_of_cons.
  intros [Hz Hnd] [->|Hx] [->|Hy] Heq; [done| | |by apply IH].
  - destruct Hz. rewrite Heq. by apply list_elem_of_fmap_2.
  - destruct Hz. rewrite <- Heq. by apply list_elem_of_fmap_2.
Qed.

(** And only then. *)
Lemma merge_refuses rcols :
  "amount" ∈ rcols →
  merge_refused "_excel" "_db" REQUIRED_COLUMNS rcols = None →
  Forall (λ c, c ∉ rcols) reserved_labels.
Proof.
  intros Hamount Hok. destruct (accepted_inv _ Hok Hamount) as (Hmerge & Hnd & Hleft).
  assert (∀ c, c ∈ rcols → c ∉ on_keys → c ≠ "amount" →
            c ≠ "amount_excel" ∧ c ≠ "amount_db") as Hlabel.
  { intros c Hc Hk Hne. split; intros ->.
    - rewrite Forall_forall in Hleft.
      apply (Hleft "amount_excel"); [|set_solver].
      rewrite <- (label_other "amount_excel") by done.
      by apply list_elem_of_fmap_2, elem_of_non_key.
    - apply Hne. apply (NoDup_fmap_eq _ _ _ _ Hnd);
        [by apply elem_of_non_key|apply elem_of_non_key; split; [compute_done|done]|].
      by rewrite label_amount, label_other. }
  unfold merge_refused in Hok. case_bool_decide as Hind; [done|]. clear Hok.
  rewrite !Exists_cons, Exists_nil in Hind. setoid_rewrite elem_of_app in Hind.
  unfold reserved_labels. rewrite !Forall_cons. split_and!; try done; try tauto.
  - intros Hc. by destruct (Hlabel _ Hc) as [? _]; [compute_done|done|].
  - intros Hc. by destruct (Hlabel _ Hc) as [_ ?]; [compute_done|done|].
Qed.

(** ** The masks of the handler select the categories *)

Section Masks.
Variable rcols : list string.
Hypothesis accepted : merge_refused "_excel" "_db" REQUIRED_COLUMNS rcols = None.
Hypothesis amount_col : "amount" ∈ rcols.

Local Abbreviation the_row := (joined "_excel" "_db" REQUIRED_COLUMNS rcols).

Lemma cell_indicator j : cell (the_row j) "_merge" = VStr (indicator j).
Proof. unfold cell. by rewrite (joined_indicator rcols). Qed.

Lemma cell_amount_excel j :
  cell (the_row j) "amount_excel" = left_cell j "amount".
Proof. unfold cell. by rewrite (joined_amount_excel rcols). Qed.

Lemma cell_amount_db j :
  cell (the_row j) "amount_db" = right_cell j "amount".
Proof. unfold cell. by rewrite (joined_amount_db rcols). Qed.

Lemma mask_reconciled j :
  both_mask (the_row j)
  && py_eq (cell (the_row j) "amount_excel") (cell (the_row j) "amount_db")
  = true ↔ category_of j = Reconciled.
Proof.
  unfold both_mask. rewrite cell_indicator, cell_amount_excel, cell_amount_db.
  destruct j as [l r| |]; simpl; [|done..]. fold (amount l) (amount r).
  by destruct (py_eq (amount l) (amount r)).
Qed.

Lemma mask_mismatch j :
  both_mask (the_row j)
  && py_ne (cell (the_row j) "amount_excel") (cell (the_row j) "amount_db")
  = true ↔ category_of j = AmountMismatch.
Proof.
  unfold both_mask, py_ne.
  rewrite cell_indicator, cell_amount_excel, cell_amount_db.
  destruct j as [l r| |]; simpl; [|done..]. fold (amount l) (amount r).
  by destruct (py_eq (amount l) (amount r)).
Qed.

Lemma mask_left_only j :
  py_eq (cell (the_row j) "_merge") (VStr "left_only") = true
  ↔ category_of j = OnlyInSpreadsheet.
Proof.
  rewrite cell_indicator. destruct j as [l r| |]; simpl; [|done..].
  by destruct (py_eq (amount l) (amount r)).
Qed.

Lemma mask_right_only j :
  py_eq (cell (the_row j) "_merge") (VStr "right_only") = true
  ↔ category_of j = OnlyInReference.
Proof.
  rewrite cell_indicator. destruct j as [l r| |]; simpl; [|done..].
  by destruct (py_eq (amount l) (amount r)).
Qed.

Lemma classify_rows cols js :
  classify {| columns := cols; rows := the_row <$> js |}
  = Ok (the_row <$> filter (λ j, category_of j = Reconciled) js)
       ((annotated "Amount Mismatch" ∘ the_row
           <$> filter (λ j, category_of j = AmountMismatch) js)
        ++ (annotated "Only in Excel" ∘ the_row
              <$> filter (λ j, category_of j = OnlyInSpreadsheet) js)
        ++ (annotated "Only in DB" ∘ the_row
              <$> filter (λ j, category_of j = OnlyInReference) js)).
Proof.
  unfold classify, to_dict, drop_column, pd_concat, assign, where_. simpl.
  rewrite (mask_fmap _ _ _ _ mask_reconciled), (mask_fmap _ _ _ _ mask_mismatch),
    (mask_fmap _ _ _ _ mask_left_only), (mask_fmap _ _ _ _ mask_right_only).
  assert (∀ reason (l : list row),
    delete "_merge" <$> (<["Mismatch Reason" := VStr reason]> <$> l)
    = annotated reason <$> l) as Hann.
  { intros. by rewrite <- list_fmap_compose. }
  by rewrite app_nil_r, !fmap_app, !list_fmap_compose, !Hann.
Qed.
End Masks.

(** ** The handler *)

Lemma required_amount (cols : string → Prop) :
  Forall cols REQUIRED_COLUMNS → cols "amount".
Proof. unfold REQUIRED_COLUMNS. rewrite !Forall_cons. tauto. Qed.

Lemma elem_of_frame_columns records c :
  c ∈ columns (DataFrame_of_records records) ↔ ∃ r, r ∈ records ∧ is_Some (r !! c).
Proof.
  simpl. rewrite elem_of_elements, elem_of_union_list.
  setoid_rewrite list_elem_of_fmap. split.
  - intros (X & (r & -> & Hr) & Hc). exists r. by rewrite <- elem_of_dom.
  - intros (r & Hr & Hc). exists (dom r). rewrite elem_of_dom. eauto.
Qed.


(** A request that passes the checks is answered by the classification, unless
    the merge is refused. *)
Lemma reconcile_sheet f df first rest :
  content f = Sheet df →
  is_Some (FILE_ENGINES !! file_extension f) →
  Forall (λ c, c ∈ dom first) REQUIRED_COLUMNS →
  Forall (λ c, c ∈ columns df) REQUIRED_COLUMNS →
  let req := {| file := Some f; db_data := Records (first :: rest) |} in
  reconcile req
  = match merge_refused "_excel" "_db" REQUIRED_COLUMNS (reference_columns req) with
    | Some e => ServerError e
    | None => classification req
    end.
Proof.
  intros Hdf Hext Hfirst Hcols req. unfold reconcile, has_required.
  cbn [file db_data req]. rewrite (bool_decide_eq_true_2 _ Hfirst).
  rewrite bool_decide_eq_false_2 by (by apply not_eq_None_Some).
  rewrite Hdf, (bool_decide_eq_true_2 _ Hcols).
  cbn [negb]. unfold merge. cbn [columns rows take_columns].
  change (columns (DataFrame_of_records (first :: rest)))
    with (reference_columns req).
  destruct (merge_refused _ _ _ _) eqn:Hok; [done|].
  rewrite (classify_rows _ Hok).
  - unfold classification, in_reason, in_category, join_rows, spreadsheet_rows,
      merged_row. cbn [file req]. destruct f as [ext sheet]. simpl in Hdf.
      by subst sheet.
  - apply elem_of_frame_columns. exists first. split; [by left|].
    apply elem_of_dom. by apply (required_amount (λ c, c ∈ dom first)).
Qed.

Lemma reconcile_Ok req reconciled unreconciled :
  reconcile req = Ok reconciled unreconciled →
  merge_refused "_excel" "_db" REQUIRED_COLUMNS (reference_columns req) = None
  ∧ "amount" ∈ reference_columns req
  ∧ classification req = Ok reconciled unreconciled.
Proof.
  destruct req as [[[ext sheet]|] [| |[|first rest]]]; try done.
  intros Hrec.
  destruct (decide (Forall (λ c, c ∈ dom first) REQUIRED_COLUMNS)) as [Hfirst|Hfirst];
    [|unfold reconcile, has_required in Hrec; cbn [file db_data] in Hrec;
      by rewrite (bool_decide_eq_false_2 _ Hfirst) in Hrec].
  destruct (FILE_ENGINES !! ext) as [engine|] eqn:Hext;
    [|unfold reconcile, has_required in Hrec;
      cbn [file db_data file_extension] in Hrec;
      by rewrite (bool_decide_eq_true_2 _ Hfirst), (bool_decide_eq_true_2 _ Hext)
        in Hrec].
  destruct sheet as [df| |];
    [|unfold reconcile, has_required in Hrec;
      cbn [file db_data file_extension content] in Hrec;
      rewrite (bool_decide_eq_true_2 _ Hfirst), bool_decide_eq_false_2 in Hrec
        by (by rewrite Hext); done..].
  destruct (decide (Forall (λ c, c ∈ columns df) REQUIRED_COLUMNS)) as [Hcols|Hcols];
    [|unfold reconcile, has_required in Hrec;
      cbn [file db_data file_extension content] in Hrec;
      rewrite (bool_decide_eq_true_2 _ Hfirst), bool_decide_eq_false_2,
        (bool_decide_eq_false_2 _ Hcols) in Hrec by (by rewrite Hext); done].
  rewrite (reconcile_sheet _ df) in Hrec by (by rewrite ?Hext).
  destruct (merge_refused _ _ _ _); [done|]. split_and!; [done| |done].
  apply elem_of_frame_columns. exists first. split; [by left|].
  apply elem_of_dom. by apply (required_amount (λ c, c ∈ dom first)).
Qed.

Lemma annotated_reason reason r :
  annotated reason r !! "Mismatch Reason" = Some (VStr reason).
Proof.
  unfold annotated. rewrite lookup_delete_ne by done. apply lookup_insert_eq.
Qed.

Lemma annotated_indicator reason r : annotated reason r !! "_merge" = None.
Proof. apply lookup_delete_eq. Qed.

Lemma annotated_other reason r c :
  c ≠ "_merge" → c ≠ "Mismatch Reason" → annotated reason r !! c = r !! c.
Proof.
  intros. unfold annotated. by rewrite lookup_delete_ne, lookup_insert_ne.
Qed.

Lemma both_joined left right l r :
  l ∈ left → r ∈ right → key_of l = key_of r → Both l r ∈ outer_join left right.
Proof.
  intros. apply elem_of_outer_join, elem_of_join_group. by simpl.
Qed.

Lemma category_both_inv j c :
  category_of j = c → c = Reconciled ∨ c = AmountMismatch →
  ∃ l r, j = Both l r ∧ py_eq (amount l) (amount r) = bool_decide (c = Reconciled).
Proof.
  destruct j as [l r| |]; simpl; [|naive_solver..].
  intros <- _. exists l, r. split; [done|].
  by destruct (py_eq (amount l) (amount r)).
Qed.


Lemma category_partition js :
  js ≡ₚ filter (λ j, category_of j = Reconciled) js
        ++ filter (λ j, category_of j = AmountMismatch) js
        ++ filter (λ j, category_of j = OnlyInSpreadsheet) js
        ++ filter (λ j, category_of j = OnlyInReference) js.
Proof.
  induction js as [|j js IH]; [done|]. rewrite !filter_cons.
  destruct (category_of j); repeat case_decide; try done;
    rewrite IH at 1; solve_Permutation.
Qed.

Lemma fmap_in_category req c (f : join_row → row) :
  (∀ j, category_of j = c → output_row req j = f j) →
  f <$> in_category c req = output_row req <$> in_category c req.
Proof.
  intros Hf. apply Forall_fmap_ext_1, Forall_forall.
  intros j [Hc _]%list_elem_of_filter. symmetry. by apply Hf.
Qed.

(** The two returned sequences hold one row for each joined row. *)
Lemma classification_rows req reconciled unreconciled :
  classification req = Ok reconciled unreconciled →
  reconciled ++ unreconciled ≡ₚ output_row req <$> join_rows req.
Proof.
  unfold classification, in_reason. intros; simplify_eq.
  etrans; [|apply (fmap_Permutation (output_row req)); symmetry;
             apply category_partition].
  rewrite !fmap_app.
  fold (in_category Reconciled req) (in_category AmountMismatch req)
    (in_category OnlyInSpreadsheet req) (in_category OnlyInReference req).
  rewrite (fmap_in_category req Reconciled (merged_row req)),
    (fmap_in_category req AmountMismatch (annotated "Amount Mismatch" ∘ merged_row req)),
    (fmap_in_category req OnlyInSpreadsheet (annotated "Only in Excel" ∘ merged_row req)),
    (fmap_in_category req OnlyInReference (annotated "Only in DB" ∘ merged_row req));
    [done|by unfold output_row; intros ? ->..].
Qed.

(** Grouping rows by key loses and repeats none of them. *)
Lemma group_by_key ks rs :
  NoDup ks → (∀ r, r ∈ rs → key_of r ∈ ks) → ks ≫= (λ k, with_key k rs) ≡ₚ rs.
Proof.
  revert rs. induction ks as [|k ks IH]; intros rs Hnd Hkeys.
  - destruct rs as [|r rs]; [done|].
    by destruct (not_elem_of_nil (key_of r)); apply Hkeys; left.
  - apply NoDup_cons in Hnd as [Hk Hnd]. rewrite bind_cons.
    etrans; [|apply (filter_app_complement (λ r, key_of r = k) rs)].
    apply Permutation_app_head.
    etrans; [|apply (IH (filter (λ r, key_of r ≠ k) rs) Hnd)].
    + apply reflexive_eq, Forall_bind_ext, Forall_forall. intros k' Hk'.
      unfold with_key. rewrite list_filter_filter. apply list_filter_iff.
      intros r. split; [intros ->; split; [done|congruence]|tauto].
    + intros r [Hne Hr]%list_elem_of_filter.
      specialize (Hkeys r Hr). apply elem_of_cons in Hkeys as [?|?]; done.
Qed.






Lemma cell_select_cells labels r c :
  c ∈ labels → cell (select_cells labels r) c = cell r c.
Proof.
  intros Hc. unfold cell at 1, select_cells.
  rewrite (elem_of_list_to_map_1' _ c (cell r c)); [done| |].
  - by intros y (c' & [= -> ->] & _)%list_elem_of_fmap.
  - by apply (list_elem_of_fmap_2 (λ c, (c, cell r c))).
Qed.



Lemma length_pairings (ls rs : list row) :
  length (l ← ls; Both l <$> rs) = (length ls * length rs)%nat.
Proof.
  induction ls as [|l ls IH]; [done|].
  rewrite bind_cons, length_app, length_fmap, IH. done.
Qed.

Lemma join_group_pairings left right k :
  with_key k left ≠ [] → with_key k right ≠ [] →
  join_group left right k = l ← with_key k left; Both l <$> with_key k right.
Proof.
  unfold join_group. by destruct (with_key k left), (with_key k right).
Qed.

(** ** The claims *)



(** C2, as the code has it. The joined rows are split into the four
    categories, each joined row in one of them, and the two returned sequences
    hold the rows of the categories; every row of either side takes part in a
    joined row; with composite keys that are unique on each side it takes part
    in one only, so that it is returned once and in one category. *)
Theorem records_once_with_unique_keys req reconciled unreconciled :
  reconcile req = Ok reconciled unreconciled →
  reconciled = output_row req <$> in_category Reconciled req
  ∧ unreconciled
    = output_row req <$> (in_category AmountMismatch req
                          ++ in_category OnlyInSpreadsheet req
                          ++ in_category OnlyInReference req)
  ∧ join_rows req ≡ₚ in_category Reconciled req
                     ++ in_category AmountMismatch req
                     ++ in_category OnlyInSpreadsheet req
                     ++ in_category OnlyInReference req
  ∧ (∀ l, l ∈ spreadsheet_rows req → from_left l (join_rows req) ≠ [])
  ∧ (∀ r, r ∈ reference_rows req → from_right r (join_rows req) ≠ [])
  ∧ (NoDup (key_of <$> spreadsheet_rows req) →
     NoDup (key_of <$> reference_rows req) →
     (∀ l, l ∈ spreadsheet_rows req → ∃ j, from_left l (join_rows req) = [j])
     ∧ (∀ r, r ∈ reference_rows req → ∃ j, from_right r (join_rows req) = [j])
     ∧ in_one_category req).
Proof.
  intros (_ & _ & Hrec)%reconcile_Ok. unfold classification, in_reason in Hrec.
  simplify_eq. split_and!.
  - by apply fmap_in_category; unfold output_row; intros ? ->.
  - rewrite !fmap_app.
    rewrite (fmap_in_category req AmountMismatch (annotated "Amount Mismatch" ∘ merged_row req)),
      (fmap_in_category req OnlyInSpreadsheet (annotated "Only in Excel" ∘ merged_row req)),
      (fmap_in_category req OnlyInReference (annotated "Only in DB" ∘ merged_row req));
      [done|by unfold output_row; intros ? ->..].
  - apply category_partition.
  - intros l (j & Hj & Hl)%(left_not_dropped _ (reference_rows req)) Hnil.
    exact (filter_nil_not_elem_of _ _ j Hnil Hl Hj).
  - intros r (j & Hj & Hr)%(right_not_dropped (spreadsheet_rows req)) Hnil.
    exact (filter_nil_not_elem_of _ _ j Hnil Hr Hj).
  - intros Hleft Hright.
    pose proof (λ l, from_left_once _ _ l Hleft Hright) as Hl.
    pose proof (λ r, from_right_once _ _ r Hleft Hright) as Hr.
    split_and!; [done..|]. split.
    + intros l [j Hj]%Hl. exists (category_of j). unfold join_rows.
      rewrite Hj. split; [done|]. by intros ? ->%list_elem_of_singleton.
    + intros r [j Hj]%Hr. exists (category_of j). unfold join_rows.
      rewrite Hj. split; [done|]. by intros ? ->%list_elem_of_singleton.
Qed.

Lemma records_once_with_unique_keys_witness :
  reconcile unique_keys
  = Ok [both_row 1 "A" 100 100]
       [unreconciled_row 4 "D" (VNum 7) (VNum 8) "Amount Mismatch";
        unreconciled_row 2 "B" (VNum 50) VNaN "Only in Excel";
        unreconciled_row 3 "C" VNaN (VNum 10) "Only in DB"]
  ∧ NoDup (key_of <$> spreadsheet_rows unique_keys)
  ∧ NoDup (key_of <$> reference_rows unique_keys)
  ∧ in_one_category unique_keys.
Proof.
  assert (reconcile unique_keys
          = Ok [both_row 1 "A" 100 100]
               [unreconciled_row 4 "D" (VNum 7) (VNum 8) "Amount Mismatch";
                unreconciled_row 2 "B" (VNum 50) VNaN "Only in Excel";
                unreconciled_row 3 "C" VNaN (VNum 10) "Only in DB"]) as Hrun
    by (vm_compute; reflexivity).
  assert (NoDup (key_of <$> spreadsheet_rows unique_keys)) as Hleft
    by compute_done.
  assert (NoDup (key_of <$> reference_rows unique_keys)) as Hright
    by compute_done.
  split_and!; [done..|].
  by apply (records_once_with_unique_keys _ _ _ Hrun).
Defined.

(** C2, as stated, fails when a key occurs twice on one side: the reference
    record of [key_twice] is returned in a reconciled row and in an Amount
    Mismatch row. *)
Lemma record_in_two_categories :
  reconcile key_twice
  = Ok [both_row 1 "A" 100 100]
       [unreconciled_row 1 "A" (VNum 150) (VNum 100) "Amount Mismatch"]
  ∧ ¬ in_one_category key_twice.
Proof.
  split; [by vm_compute|]. intros [_ Hright].
  destruct (Hright (record 1 "A" 100)) as (c & _ & Hc); [by left|].
  assert (from_right (record 1 "A" 100) (join_rows key_twice)
          = [Both (record 1 "A" 100) (record 1 "A" 100);
             Both (record 1 "A" 150) (record 1 "A" 100)]) as Hjoin
    by (vm_compute; reflexivity).
  rewrite Hjoin in Hc.
  pose proof (Hc (Both (record 1 "A" 100) (record 1 "A" 100))) as H1.
  pose proof (Hc (Both (record 1 "A" 150) (record 1 "A" 100))) as H2.
  rewrite !elem_of_cons in H1, H2.
  specialize (H1 ltac:(tauto)). specialize (H2 ltac:(tauto)).
  vm_compute in H1, H2. congruence.
Qed.



Example empty_sheet_run :
  reconcile empty_sheet
  = Ok []
       [<["note" := VNaN]> (unreconciled_row 1 "A" VNaN (VNum 100) "Only in DB");
        <["note" := VNaN]> (unreconciled_row 1 "A" VNaN (VNum 120) "Only in DB");
        <["note" := VStr "late"]>
          (unreconciled_row 2 "B" VNaN (VNum 50) "Only in DB")].
Proof. vm_compute. reflexivity. Qed.




(** C4, as the code has it. The fields are looked for in the first reference
    record, before the file is looked at, and in the columns of the sheet;
    when one is missing there the request is refused with a description and
    nothing is joined. *)
Theorem schema_checks f first rest :
  let req := {| file := Some f; db_data := Records (first :: rest) |} in
  (¬ Forall (λ c, c ∈ dom first) REQUIRED_COLUMNS →
   reconcile req
   = BadRequest "Invalid DB data format. Expected columns: id, reference, amount")
  ∧ (Forall (λ c, c ∈ dom first) REQUIRED_COLUMNS →
     ∀ df, content f = Sheet df →
           is_Some (FILE_ENGINES !! file_extension f) →
           ¬ Forall (λ c, c ∈ columns df) REQUIRED_COLUMNS →
     reconcile req
     = BadRequest "Invalid Excel format. Expected columns: id, reference, amount").
Proof.
  intros req. unfold reconcile, has_required. cbn [file db_data req]. split.
  - intros Hfirst. by rewrite (bool_decide_eq_false_2 _ Hfirst).
  - intros Hfirst df Hdf Hext Hcols.
    rewrite (bool_decide_eq_true_2 _ Hfirst).
    rewrite bool_decide_eq_false_2 by (by apply not_eq_None_Some).
    by rewrite Hdf, (bool_decide_eq_false_2 _ Hcols).
Qed.

Lemma schema_checks_witness :
  reconcile first_record_incomplete
  = BadRequest "Invalid DB data format. Expected columns: id, reference, amount"
  ∧ reconcile sheet_without_id
    = BadRequest "Invalid Excel format. Expected columns: id, reference, amount".
Proof.
  split.
  - apply (schema_checks
             {| file_extension := ".xlsx"; content := Sheet (sheet [record 1 "A" 100]) |}
             {[ "id" := VNum 2; "reference" := VStr "B" ]} [record 1 "A" 100]).
    apply (bool_decide_eq_false_1 _). vm_compute. reflexivity.
  - eapply (schema_checks {| file_extension := ".xlsx" |} (record 1 "A" 100) []);
      [compute_done|reflexivity|by eexists|].
    apply (bool_decide_eq_false_1 _). vm_compute. reflexivity.
Defined.

(** C4, as stated, fails: a record after the first may lack a field; its cell
    reads as missing and the request is classified. *)
Lemma later_record_not_checked :
  reconcile later_record_incomplete
  = Ok [both_row 1 "A" 100 100] [unreconciled_row 2 "B" VNaN VNaN "Only in DB"]
  ∧ ¬ described_failure (reconcile later_record_incomplete).
Proof.
  assert (reconcile later_record_incomplete
          = Ok [both_row 1 "A" 100 100]
               [unreconciled_row 2 "B" VNaN VNaN "Only in DB"]) as Hrun
    by (vm_compute; reflexivity).
  rewrite Hrun. split; [done|]. by intros [? ?].
Qed.




(** C6. The unreconciled sequence is the Amount Mismatch rows, then the Only in
    Excel rows, then the Only in DB rows, one row for each joined row of these
    categories; it is returned next to the reconciled rows. *)
Theorem unreconciled_in_category_order req reconciled unreconciled :
  reconcile req = Ok reconciled unreconciled →
  reconciled = merged_row req <$> in_category Reconciled req
  ∧ unreconciled
    = (annotated "Amount Mismatch" ∘ merged_row req <$> in_category AmountMismatch req)
      ++ (annotated "Only in Excel" ∘ merged_row req <$> in_category OnlyInSpreadsheet req)
      ++ (annotated "Only in DB" ∘ merged_row req <$> in_category OnlyInReference req)
  ∧ length unreconciled
    = (length (in_category AmountMismatch req)
       + length (in_category OnlyInSpreadsheet req)
       + length (in_category OnlyInReference req))%nat.
Proof.
  intros (_ & _ & Hrec)%reconcile_Ok. unfold classification, in_reason in Hrec.
  simplify_eq. split_and!; [done..|].
  rewrite !length_app, !length_fmap. lia.
Qed.

Lemma unreconciled_in_category_order_witness :
  reconcile unique_keys
  = Ok [both_row 1 "A" 100 100]
       [unreconciled_row 4 "D" (VNum 7) (VNum 8) "Amount Mismatch";
        unreconciled_row 2 "B" (VNum 50) VNaN "Only in Excel";
        unreconciled_row 3 "C" VNaN (VNum 10) "Only in DB"]
  ∧ length (in_category AmountMismatch unique_keys) = 1%nat
  ∧ length (in_category OnlyInSpreadsheet unique_keys) = 1%nat
  ∧ length (in_category OnlyInReference unique_keys) = 1%nat.
Proof.
  assert (reconcile unique_keys
          = Ok [both_row 1 "A" 100 100]
               [unreconciled_row 4 "D" (VNum 7) (VNum 8) "Amount Mismatch";
                unreconciled_row 2 "B" (VNum 50) VNaN "Only in Excel";
                unreconciled_row 3 "C" VNaN (VNum 10) "Only in DB"]) as Hrun
    by (vm_compute; reflexivity).
  destruct (unreconciled_in_category_order _ _ _ Hrun) as (_ & _ & Hlen).
  split; [exact Hrun|]. clear Hrun Hlen. vm_compute. by split_and!.
Defined.

(** C8. The join is a total function of the two frames. The joined rows of a
    key that both sides have are the pairings of every spreadsheet row of that
    key with every reference row of that key, however many there are; every
    row of either side takes part in a joined row; and one row is returned for
    each joined row. *)
Theorem pairings_of_a_key req k :
  let ls := with_key k (spreadsheet_rows req) in
  let rs := with_key k (reference_rows req) in
  (ls ≠ [] → rs ≠ [] →
   filter (λ j, join_key j = k) (join_rows req) = (l ← ls; Both l <$> rs)
   ∧ length (filter (λ j, join_key j = k) (join_rows req))
     = (length ls * length rs)%nat)
  ∧ (∀ l, l ∈ spreadsheet_rows req → ∃ j, j ∈ join_rows req ∧ left_of j = Some l)
  ∧ (∀ r, r ∈ reference_rows req → ∃ j, j ∈ join_rows req ∧ right_of j = Some r)
  ∧ ∀ reconciled unreconciled,
      reconcile req = Ok reconciled unreconciled →
      reconciled ++ unreconciled ≡ₚ output_row req <$> join_rows req.
Proof.
  intros ls rs. split_and!.
  - intros Hls Hrs. unfold join_rows. rewrite outer_join_with_key.
    rewrite join_group_pairings by done. split; [done|]. apply length_pairings.
  - intros l. apply left_not_dropped.
  - intros r. apply right_not_dropped.
  - intros reconciled unreconciled (_ & _ & Hrec)%reconcile_Ok.
    by apply classification_rows.
Qed.

Lemma pairings_of_a_key_witness :
  filter (λ j, join_key j = (VNum 1, VStr "A")) (join_rows key_twice_on_both_sides)
  = [Both (record 1 "A" 100) (record 1 "A" 100);
     Both (record 1 "A" 100) (record 1 "A" 150);
     Both (record 1 "A" 150) (record 1 "A" 100);
     Both (record 1 "A" 150) (record 1 "A" 150)]
  ∧ reconcile key_twice_on_both_sides
    = Ok [both_row 1 "A" 100 100; both_row 1 "A" 150 150]
         [unreconciled_row 1 "A" (VNum 100) (VNum 150) "Amount Mismatch";
          unreconciled_row 1 "A" (VNum 150) (VNum 100) "Amount Mismatch";
          unreconciled_row 2 "B" (VNum 5) VNaN "Only in Excel"].
Proof.
  split; [|vm_compute; reflexivity].
  destruct (pairings_of_a_key key_twice_on_both_sides (VNum 1, VStr "A"))
    as (Hpairs & _).
  destruct Hpairs as [-> _]; [compute_done..|]. vm_compute. reflexivity.
Defined.

(** C9, as the code has it. For the first scenario of the specification the
    reconciled sequence holds one row, with the key, the amount of each side
    and the indicator; nothing is unreconciled. *)
Theorem scenario_1_response :
  reconcile scenario_1
  = Ok [{[ "id" := VNum 1; "reference" := VStr "A"; "amount_excel" := VNum 100;
           "amount_db" := VNum 100; "_merge" := VStr "both" ]}]
       [].
Proof. vm_compute. reflexivity. Qed.

(** C9, as stated, fails: the reconciled row is not the record
    {id: 1, reference: A, amount: 100}. *)
Lemma scenario_1_not_the_record :
  reconcile scenario_1
  ≠ Ok [{[ "id" := VNum 1; "reference" := VStr "A"; "amount" := VNum 100 ]}] [].
Proof. vm_compute. discriminate. Qed.

(** C10. A reconciled row has the indicator, with the value both, next to the
    key and the two amounts; an unreconciled row has no indicator; so no
    reconciled row has the fields of an unreconciled row. *)
Theorem indicator_in_reconciled_rows_only req reconciled unreconciled :
  reconcile req = Ok reconciled unreconciled →
  (∀ r, r ∈ reconciled →
     r !! "_merge" = Some (VStr "both")
     ∧ is_Some (r !! "id") ∧ is_Some (r !! "reference")
     ∧ is_Some (r !! "amount_excel") ∧ is_Some (r !! "amount_db"))
  ∧ (∀ r, r ∈ unreconciled → r !! "_merge" = None)
  ∧ ∀ r r', r ∈ reconciled → r' ∈ unreconciled → dom r ≠ dom r'.
Proof.
  intros (Hok & Hamount & Hrec)%reconcile_Ok.
  unfold classification, in_reason in Hrec. simplify_eq.
  assert (∀ r, r ∈ merged_row req <$> in_category Reconciled req →
            r !! "_merge" = Some (VStr "both")) as Hboth.
  { intros r (j & -> & [Hcat _]%list_elem_of_filter)%list_elem_of_fmap.
    destruct (category_both_inv _ _ Hcat) as (l' & r' & -> & _); [by left|].
    apply (joined_indicator _ Hok Hamount). }
  assert (∀ r, r ∈ (annotated "Amount Mismatch" ∘ merged_row req
                      <$> in_category AmountMismatch req)
                   ++ (annotated "Only in Excel" ∘ merged_row req
                         <$> in_category OnlyInSpreadsheet req)
                   ++ (annotated "Only in DB" ∘ merged_row req
                         <$> in_category OnlyInReference req) →
            r !! "_merge" = None) as Hnone.
  { intros r. rewrite !elem_of_app, !list_elem_of_fmap.
    intros [(j & -> & _)|[(j & -> & _)|(j & -> & _)]]; apply annotated_indicator. }
  split_and!; [|done|].
  - intros r Hr. split; [by apply Hboth|].
    apply list_elem_of_fmap in Hr as (j & -> & _). unfold merged_row.
    fold (reference_columns req).
    rewrite (joined_id _ Hok Hamount), (joined_reference _ Hok Hamount),
      (joined_amount_excel _ Hok Hamount), (joined_amount_db _ Hok Hamount).
    by split_and!.
  - intros r r' Hr%Hboth Hr'%Hnone Hdom.
    assert ("_merge" ∈ dom r) as Hin by (apply elem_of_dom; by rewrite Hr).
    rewrite Hdom in Hin. apply elem_of_dom in Hin as [? Hin]. congruence.
Qed.

Lemma indicator_in_reconciled_rows_only_witness :
  reconcile unique_keys
  = Ok [both_row 1 "A" 100 100]
       [unreconciled_row 4 "D" (VNum 7) (VNum 8) "Amount Mismatch";
        unreconciled_row 2 "B" (VNum 50) VNaN "Only in Excel";
        unreconciled_row 3 "C" VNaN (VNum 10) "Only in DB"]
  ∧ both_row 1 "A" 100 100 !! "_merge" = Some (VStr "both")
  ∧ unreconciled_row 2 "B" (VNum 50) VNaN "Only in Excel" !! "_merge" = None.
Proof.
  assert (reconcile unique_keys
          = Ok [both_row 1 "A" 100 100]
               [unreconciled_row 4 "D" (VNum 7) (VNum 8) "Amount Mismatch";
                unreconciled_row 2 "B" (VNum 50) VNaN "Only in Excel";
                unreconciled_row 3 "C" VNaN (VNum 10) "Only in DB"]) as Hrun
    by (vm_compute; reflexivity).
  destruct (indicator_in_reconciled_rows_only _ _ _ Hrun) as (Hrec & Hunrec & _).
  split_and!; [done| |].
  - apply Hrec. by left.
  - apply Hunrec. right. by left.
Defined.

(** A reserved label among the reference fields stops the merge, and the
    handler answers with the exception. *)
Example indicator_field_refused : reconcile indicator_field = ServerError ValueError.
Proof. reflexivity. Qed.

(** * Further properties of the handler *)

(** ** When a request is classified, and what the returned rows are *)

Lemma reconcile_Ok_request req reconciled unreconciled :
  reconcile req = Ok reconciled unreconciled →
  ∃ f df first rest,
    file req = Some f ∧ content f = Sheet df
    ∧ is_Some (FILE_ENGINES !! file_extension f)
    ∧ db_data req = Records (first :: rest)
    ∧ Forall (λ c, c ∈ dom first) REQUIRED_COLUMNS
    ∧ Forall (λ c, c ∈ columns df) REQUIRED_COLUMNS.
Proof.
  destruct req as [[[ext sheet]|] [| |[|first rest]]]; try done.
  unfold reconcile, has_required. cbn [file db_data file_extension content].
  case_bool_decide as Hfirst; [|done]. case_bool_decide as Hext; [done|].
  destruct sheet as [df| |]; try done.
  case_bool_decide as Hcols; [|done]. intros _.
  exists {| file_extension := ext; content := Sheet df |}, df, first, rest.
  split_and!; try done. by apply not_eq_None_Some.
Qed.

Lemma returned_rows req reconciled unreconciled :
  reconcile req = Ok reconciled unreconciled →
  (∀ row, row ∈ reconciled
          ↔ ∃ j, j ∈ join_rows req ∧ category_of j = Reconciled
                 ∧ row = output_row req j)
  ∧ (∀ row, row ∈ unreconciled
            ↔ ∃ j, j ∈ join_rows req ∧ category_of j ≠ Reconciled
                   ∧ row = output_row req j).
Proof.
  intros (_ & _ & Hrec)%reconcile_Ok. unfold classification, in_reason in Hrec.
  simplify_eq. unfold in_category. split; intros row.
  - rewrite list_elem_of_fmap. setoid_rewrite list_elem_of_filter.
    unfold output_row. split.
    + intros (j & -> & Hc & Hj). exists j. by rewrite Hc.
    + intros (j & Hj & Hc & ->). exists j. by rewrite Hc.
  - rewrite !elem_of_app, !list_elem_of_fmap.
    setoid_rewrite list_elem_of_filter. unfold output_row. split.
    + intros [(j & -> & Hc & Hj)|[(j & -> & Hc & Hj)|(j & -> & Hc & Hj)]];
        exists j; by rewrite Hc.
    + intros (j & Hj & Hc & ->).
      destruct (category_of j) eqn:Hcat; [done|left|right; left|right; right];
        by exists j.
Qed.

Lemma output_row_cell req j c :
  c ≠ "_merge" → c ≠ "Mismatch Reason" →
  output_row req j !! c = merged_row req j !! c.
Proof.
  intros. unfold output_row. destruct (category_of j); by rewrite ?annotated_other.
Qed.

(** X1. A classification is returned only for a request that carries a file
    with a supported extension, read as a sheet with the three columns, and a
    non-empty list of reference records whose first record has the three
    fields and none of which has a field with a label the merge makes
    itself. *)
Theorem classified_only_if req reconciled unreconciled :
  reconcile req = Ok reconciled unreconciled →
  ∃ f df first rest,
    file req = Some f ∧ content f = Sheet df
    ∧ is_Some (FILE_ENGINES !! file_extension f)
    ∧ Forall (λ c, c ∈ columns df) REQUIRED_COLUMNS
    ∧ db_data req = Records (first :: rest)
    ∧ Forall (λ c, c ∈ dom first) REQUIRED_COLUMNS
    ∧ ∀ r c, r ∈ first :: rest → is_Some (r !! c) → c ∉ reserved_labels.
Proof.
  intros Hrun.
  destruct (reconcile_Ok_request _ _ _ Hrun)
    as (f & df & first & rest & Hf & Hdf & Hext & Hdb & Hfirst & Hcols).
  destruct (reconcile_Ok _ _ _ Hrun) as (Hok & Hamount & _).
  exists f, df, first, rest. split_and!; try done.
  intros r c Hr Hc Hres.
  pose proof (merge_refuses _ Hamount Hok) as Hfree.
  rewrite Forall_forall in Hfree. apply (Hfree c Hres).
  apply elem_of_frame_columns. exists r. split; [|done].
  unfold reference_rows. by rewrite Hdb.
Qed.

Lemma classified_only_if_witness :
  ∃ f df first rest,
    file unique_keys = Some f ∧ content f = Sheet df
    ∧ is_Some (FILE_ENGINES !! file_extension f)
    ∧ Forall (λ c, c ∈ columns df) REQUIRED_COLUMNS
    ∧ db_data unique_keys = Records (first :: rest)
    ∧ Forall (λ c, c ∈ dom first) REQUIRED_COLUMNS
    ∧ ∀ r c, r ∈ first :: rest → is_Some (r !! c) → c ∉ reserved_labels.
Proof.
  apply (classified_only_if unique_keys
           [both_row 1 "A" 100 100]
           [unreconciled_row 4 "D" (VNum 7) (VNum 8) "Amount Mismatch";
            unreconciled_row 2 "B" (VNum 50) VNaN "Only in Excel";
            unreconciled_row 3 "C" VNaN (VNum 10) "Only in DB"]).
  vm_compute. reflexivity.
Defined.

(** X2. A request that passes the checks of the handler and has a reference
    record with a field named amount_excel, amount_db, _merge, _left_indicator
    or _right_indicator is answered with a server error: the merge raises,
    and nothing is classified. *)
Theorem reserved_label_refused f df first rest r c :
  content f = Sheet df →
  is_Some (FILE_ENGINES !! file_extension f) →
  Forall (λ c, c ∈ columns df) REQUIRED_COLUMNS →
  Forall (λ c, c ∈ dom first) REQUIRED_COLUMNS →
  r ∈ first :: rest → is_Some (r !! c) → c ∈ reserved_labels →
  ∃ e, reconcile {| file := Some f; db_data := Records (first :: rest) |}
       = ServerError e.
Proof.
  intros Hdf Hext Hcols Hfirst Hr Hc Hres.
  pose proof (reconcile_sheet f df first rest Hdf Hext Hfirst Hcols) as Hrun.
  cbv zeta in Hrun. rewrite Hrun.
  destruct (merge_refused _ _ _ _) as [e|] eqn:Hok; [by exists e|].
  assert ("amount" ∈ reference_columns
            {| file := Some f; db_data := Records (first :: rest) |}) as Hamount.
  { apply elem_of_frame_columns. exists first. split; [by left|].
    apply elem_of_dom. by apply (required_amount (λ c, c ∈ dom first)). }
  pose proof (merge_refuses _ Hamount Hok) as Hfree.
  rewrite Forall_forall in Hfree. destruct (Hfree c Hres).
  apply elem_of_frame_columns. by exists r.
Qed.

Lemma reserved_label_refused_witness :
  ∃ e, reconcile indicator_field = ServerError e.
Proof.
  apply (reserved_label_refused
           {| file_extension := ".xlsx"; content := Sheet (sheet []) |} (sheet [])
           (<["_merge" := VStr "x"]> (record 1 "A" 100)) []
           (<["_merge" := VStr "x"]> (record 1 "A" 100)) "_merge");
    [done|by eexists|compute_done|compute_done|by left|by eexists|compute_done].
Defined.

(** X3. Every returned row carries, as its id and reference, the key of the
    rows it is made of: the key of the spreadsheet row and of the reference
    row of a pairing, which are the same, or the key of the row that is
    alone. *)
Theorem key_carried req reconciled unreconciled j :
  reconcile req = Ok reconciled unreconciled →
  j ∈ join_rows req →
  output_row req j !! "id" = Some (join_key j).1
  ∧ output_row req j !! "reference" = Some (join_key j).2
  ∧ (∀ l, left_of j = Some l → key_of l = join_key j)
  ∧ (∀ r, right_of j = Some r → key_of r = join_key j).
Proof.
  intros (Hok & Hamount & _)%reconcile_Ok Hj.
  rewrite !output_row_cell by done. unfold merged_row.
  rewrite (joined_id _ Hok Hamount), (joined_reference _ Hok Hamount).
  split_and!.
  - by destruct j.
  - by destruct j.
  - intros l Hl. by destruct j; simplify_eq/=.
  - intros r Hr. symmetry. by eapply join_key_right.
Qed.

Lemma key_carried_witness :
  output_row unique_keys (Both (record 4 "D" 7) (record 4 "D" 8)) !! "id"
  = Some (VNum 4)
  ∧ output_row unique_keys (Both (record 4 "D" 7) (record 4 "D" 8)) !! "reference"
    = Some (VStr "D").
Proof.
  assert (reconcile unique_keys
          = Ok [both_row 1 "A" 100 100]
               [unreconciled_row 4 "D" (VNum 7) (VNum 8) "Amount Mismatch";
                unreconciled_row 2 "B" (VNum 50) VNaN "Only in Excel";
                unreconciled_row 3 "C" VNaN (VNum 10) "Only in DB"]) as Hrun
    by (vm_compute; reflexivity).
  assert (Both (record 4 "D" 7) (record 4 "D" 8) ∈ join_rows unique_keys) as Hj
    by compute_done.
  destruct (key_carried _ _ _ _ Hrun Hj) as (Hid & Href & _).
  by split.
Defined.

(** X4. What a returned row says about its amounts. In a reconciled row the
    two amounts are equal under [==]. An unreconciled row has one of three
    reasons: Amount Mismatch, and its amounts are not equal; Only in Excel, and
    its reference amount is missing; Only in DB, and its spreadsheet amount is
    missing. *)
Theorem reason_tells req reconciled unreconciled :
  reconcile req = Ok reconciled unreconciled →
  (∀ row, row ∈ reconciled →
     py_eq (cell row "amount_excel") (cell row "amount_db") = true)
  ∧ ∀ row, row ∈ unreconciled →
      (row !! "Mismatch Reason" = Some (VStr "Amount Mismatch")
       ∧ py_eq (cell row "amount_excel") (cell row "amount_db") = false)
      ∨ (row !! "Mismatch Reason" = Some (VStr "Only in Excel")
         ∧ cell row "amount_db" = VNaN)
      ∨ (row !! "Mismatch Reason" = Some (VStr "Only in DB")
         ∧ cell row "amount_excel" = VNaN).
Proof.
  intros Hrun. destruct (reconcile_Ok _ _ _ Hrun) as (Hok & Hamount & _).
  destruct (returned_rows _ _ _ Hrun) as [Hrec Hunrec].
  assert (∀ j, cell (output_row req j) "amount_excel" = left_cell j "amount")
    as Hexcel.
  { intros j. unfold cell. rewrite output_row_cell by done. unfold merged_row.
    by rewrite (joined_amount_excel _ Hok Hamount). }
  assert (∀ j, cell (output_row req j) "amount_db" = right_cell j "amount")
    as Hdb.
  { intros j. unfold cell. rewrite output_row_cell by done. unfold merged_row.
    by rewrite (joined_amount_db _ Hok Hamount). }
  split; intros row.
  - intros (j & _ & Hcat & ->)%Hrec. rewrite Hexcel, Hdb.
    destruct (category_both_inv _ _ Hcat) as (l & r & -> & Heq); [by left|].
    done.
  - intros (j & _ & Hcat & ->)%Hunrec. rewrite Hexcel, Hdb.
    unfold output_row. destruct j as [l r|l|r]; simpl in *.
    + fold (amount l) (amount r) in *.
      destruct (py_eq (amount l) (amount r)); [done|].
      left. by rewrite annotated_reason.
    + right; left. by rewrite annotated_reason.
    + right; right. by rewrite annotated_reason.
Qed.

Lemma reason_tells_witness :
  cell (unreconciled_row 2 "B" (VNum 50) VNaN "Only in Excel") "amount_db" = VNaN
  ∧ py_eq (cell (both_row 1 "A" 100 100) "amount_excel")
          (cell (both_row 1 "A" 100 100) "amount_db") = true.
Proof.
  assert (reconcile unique_keys
          = Ok [both_row 1 "A" 100 100]
               [unreconciled_row 4 "D" (VNum 7) (VNum 8) "Amount Mismatch";
                unreconciled_row 2 "B" (VNum 50) VNaN "Only in Excel";
                unreconciled_row 3 "C" VNaN (VNum 10) "Only in DB"]) as Hrun
    by (vm_compute; reflexivity).
  destruct (reason_tells _ _ _ Hrun) as [Hrec _].
  split; [reflexivity|]. apply Hrec. by left.
Defined.

(** ** The fields of the returned rows *)

Lemma dom_joined lsuffix rsuffix lcols rcols j :
  dom (joined lsuffix rsuffix lcols rcols j)
  = {["_merge"]} ∪ (list_to_set (left_labels lsuffix lcols rcols)
                    ∪ list_to_set (right_labels rsuffix lcols rcols)).
Proof.
  unfold joined, left_labels, right_labels.
  rewrite dom_insert_L, dom_union_L, !dom_list_to_map_L.
  by rewrite <- !list_fmap_compose.
Qed.

Lemma dom_annotated reason (r : row) :
  dom (annotated reason r) = ({["Mismatch Reason"]} ∪ dom r) ∖ {["_merge"]}.
Proof. unfold annotated. by rewrite dom_delete_L, dom_insert_L. Qed.

(** X5. The rows of a response have the same fields throughout: every
    reconciled row has one set of fields, which holds id, reference,
    amount_excel, amount_db, _merge and every further field met in a reference
    record; every unreconciled row has these fields without _merge and with
    Mismatch Reason. So a field that some record lacks is in its row all the
    same. *)
Theorem rows_share_fields req reconciled unreconciled :
  reconcile req = Ok reconciled unreconciled →
  ∃ fields : gset string,
    (∀ row, row ∈ reconciled → dom row = fields)
    ∧ (∀ row, row ∈ unreconciled →
         dom row = ({["Mismatch Reason"]} ∪ fields) ∖ {["_merge"]})
    ∧ (∀ c, c ∈ ["id"; "reference"; "amount_excel"; "amount_db"; "_merge"] →
         c ∈ fields)
    ∧ (∀ r c, r ∈ reference_rows req → is_Some (r !! c) →
         c ∉ REQUIRED_COLUMNS → c ∈ fields).
Proof.
  intros Hrun. destruct (reconcile_Ok _ _ _ Hrun) as (Hok & Hamount & _).
  destruct (returned_rows _ _ _ Hrun) as [Hrec Hunrec].
  exists ({["_merge"]}
          ∪ (list_to_set (left_labels "_excel" REQUIRED_COLUMNS (reference_columns req))
             ∪ list_to_set (right_labels "_db" REQUIRED_COLUMNS (reference_columns req)))).
  assert (∀ j c, is_Some (merged_row req j !! c)
                 → c ∈ dom (merged_row req j)) as Hdom
    by (intros; by apply elem_of_dom).
  split_and!.
  - intros row (j & _ & Hcat & ->)%Hrec. unfold output_row. rewrite Hcat.
    apply dom_joined.
  - intros row (j & _ & Hcat & ->)%Hunrec. unfold output_row.
    unfold merged_row.
    destruct (category_of j); [done|..]; by rewrite dom_annotated, dom_joined.
  - intros c Hc. rewrite <- (dom_joined _ _ _ _ (LeftOnly ∅)).
    apply elem_of_dom. rewrite !elem_of_cons, elem_of_nil in Hc.
    destruct Hc as [->|[->|[->|[->|[->|[]]]]]].
    + by rewrite (joined_id _ Hok Hamount).
    + by rewrite (joined_reference _ Hok Hamount).
    + by rewrite (joined_amount_excel _ Hok Hamount).
    + by rewrite (joined_amount_db _ Hok Hamount).
    + by rewrite (joined_indicator _ Hok Hamount).
  - intros r c Hr Hc Hreq. rewrite <- (dom_joined _ _ _ _ (LeftOnly ∅)).
    apply elem_of_dom. rewrite (joined_extra _ Hok Hamount); [done| |done].
    apply elem_of_frame_columns. by exists r.
Qed.

Lemma rows_share_fields_witness :
  dom (<["note" := VStr "paid"]> (both_row 1 "A" 100 100))
  = {[ "id"; "reference"; "amount_excel"; "amount_db"; "_merge"; "note" ]}
  ∧ ∃ fields : gset string,
      (∀ row, row ∈ [<["note" := VStr "paid"]> (both_row 1 "A" 100 100)] →
         dom row = fields)
      ∧ (∀ row, row ∈ [<["note" := VStr "late"]>
                         (unreconciled_row 2 "B" VNaN (VNum 50) "Only in DB")] →
           dom row = ({["Mismatch Reason"]} ∪ fields) ∖ {["_merge"]})
      ∧ (∀ c, c ∈ ["id"; "reference"; "amount_excel"; "amount_db"; "_merge"] →
           c ∈ fields)
      ∧ (∀ r c, r ∈ reference_rows reference_note → is_Some (r !! c) →
           c ∉ REQUIRED_COLUMNS → c ∈ fields).
Proof.
  split; [vm_compute; reflexivity|].
  apply (rows_share_fields reference_note). vm_compute. reflexivity.
Defined.

(** ** Rows that are alone *)

Lemma with_key_nil k rs : with_key k rs = [] ↔ ∀ r, r ∈ rs → key_of r ≠ k.
Proof.
  split.
  - intros Hnil r Hr Hk. by apply (filter_nil_not_elem_of _ _ r Hnil).
  - intros Hne. apply filter_none, Forall_forall. done.
Qed.

Lemma left_only_joined left right l :
  LeftOnly l ∈ outer_join left right
  ↔ l ∈ left ∧ ∀ r, r ∈ right → key_of r ≠ key_of l.
Proof.
  rewrite elem_of_outer_join, elem_of_join_group, with_key_nil. simpl. tauto.
Qed.

Lemma right_only_joined left right r :
  RightOnly r ∈ outer_join left right
  ↔ r ∈ right ∧ ∀ l, l ∈ left → key_of l ≠ key_of r.
Proof.
  rewrite elem_of_outer_join, elem_of_join_group, with_key_nil. simpl. tauto.
Qed.

(** X6. The rows with the reason Only in Excel are the spreadsheet rows whose
    key no reference record has, and the rows with the reason Only in DB are
    the reference records whose key no spreadsheet row has; never the other
    way round. In an Only in Excel row the reference amount and every further
    reference field are missing. *)
Theorem alone_on_one_side req reconciled unreconciled :
  reconcile req = Ok reconciled unreconciled →
  (∀ row, row ∈ unreconciled ∧ row !! "Mismatch Reason" = Some (VStr "Only in Excel")
          ↔ ∃ l, l ∈ spreadsheet_rows req
                 ∧ (∀ r, r ∈ reference_rows req → key_of r ≠ key_of l)
                 ∧ row = annotated "Only in Excel" (merged_row req (LeftOnly l)))
  ∧ (∀ row, row ∈ unreconciled ∧ row !! "Mismatch Reason" = Some (VStr "Only in DB")
            ↔ ∃ r, r ∈ reference_rows req
                   ∧ (∀ l, l ∈ spreadsheet_rows req → key_of l ≠ key_of r)
                   ∧ row = annotated "Only in DB" (merged_row req (RightOnly r)))
  ∧ ∀ l c, c = "amount_db"
           ∨ (c ∈ reference_columns req ∧ (c ∉ REQUIRED_COLUMNS)
              ∧ c ≠ "Mismatch Reason") →
      annotated "Only in Excel" (merged_row req (LeftOnly l)) !! c = Some VNaN.
Proof.
  intros Hrun. destruct (reconcile_Ok _ _ _ Hrun) as (Hok & Hamount & _).
  destruct (returned_rows _ _ _ Hrun) as [_ Hunrec]. split_and!.
  - intros row. rewrite Hunrec. split.
    + intros [(j & Hj & Hcat & ->) Hreason]. unfold output_row in *.
      destruct j as [l r|l|r]; simpl in *.
      * destruct (py_eq (amount l) (amount r)); [done|].
        by rewrite annotated_reason in Hreason.
      * apply left_only_joined in Hj as [Hl Hnone]. by exists l.
      * by rewrite annotated_reason in Hreason.
    + intros (l & Hl & Hnone & ->). split; [|apply annotated_reason].
      exists (LeftOnly l). split_and!; [|done..]. by apply left_only_joined.
  - intros row. rewrite Hunrec. split.
    + intros [(j & Hj & Hcat & ->) Hreason]. unfold output_row in *.
      destruct j as [l r|l|r]; simpl in *.
      * destruct (py_eq (amount l) (amount r)); [done|].
        by rewrite annotated_reason in Hreason.
      * by rewrite annotated_reason in Hreason.
      * apply right_only_joined in Hj as [Hr Hnone]. by exists r.
    + intros (r & Hr & Hnone & ->). split; [|apply annotated_reason].
      exists (RightOnly r). split_and!; [|done..]. by apply right_only_joined.
  - intros l c [->|(Hc & Hreq & Hreason)].
    + rewrite annotated_other by done. unfold merged_row.
      by rewrite (joined_amount_db _ Hok Hamount).
    + assert (c ≠ "_merge") as Hind.
      { intros ->. by destruct (accepted_inv _ Hok Hamount) as (? & _). }
      rewrite annotated_other by done. unfold merged_row.
      by rewrite (joined_extra _ Hok Hamount).
Qed.

Lemma alone_on_one_side_witness :
  unreconciled_row 2 "B" (VNum 50) VNaN "Only in Excel"
  = annotated "Only in Excel" (merged_row unique_keys (LeftOnly (record 2 "B" 50)))
  ∧ ∀ r, r ∈ reference_rows unique_keys → key_of r ≠ key_of (record 2 "B" 50).
Proof.
  assert (reconcile unique_keys
          = Ok [both_row 1 "A" 100 100]
               [unreconciled_row 4 "D" (VNum 7) (VNum 8) "Amount Mismatch";
                unreconciled_row 2 "B" (VNum 50) VNaN "Only in Excel";
                unreconciled_row 3 "C" VNaN (VNum 10) "Only in DB"]) as Hrun
    by (vm_compute; reflexivity).
  destruct (alone_on_one_side _ _ _ Hrun) as (Hexcel & _ & _).
  destruct (Hexcel (unreconciled_row 2 "B" (VNum 50) VNaN "Only in Excel"))
    as [Hl _].
  destruct Hl as (l & Hl & Hnone & Hrow); [split; [right; by left|reflexivity]|].
  assert (l = record 2 "B" 50) as ->.
  { revert Hl Hrow. unfold spreadsheet_rows, unique_keys, xlsx, sheet. simpl.
    rewrite !elem_of_cons, elem_of_nil.
    intros [->|[->|[->|[]]]] Hrow; [|reflexivity|];
      apply (f_equal (λ m : row, m !! "id")) in Hrow; vm_compute in Hrow;
      discriminate. }
  by split.
Defined.

(** ** How often a row is returned *)

Lemma filter_same_key (l : row) rs :
  filter (λ x, x = l) (with_key (key_of l) rs) = filter (λ x, x = l) rs.
Proof.
  unfold with_key. rewrite list_filter_filter. apply list_filter_iff.
  intros x. split; [tauto|]. by intros ->.
Qed.

Lemma from_left_pairings l (ls rs : list row) :
  length (from_left l (l' ← ls; Both l' <$> rs))
  = (length (filter (λ x, x = l) ls) * length rs)%nat.
Proof.
  unfold from_left. induction ls as [|x ls IH]; [done|].
  rewrite bind_cons, filter_app, length_app, IH, filter_cons.
  destruct (decide (x = l)) as [->|Hne].
  - rewrite filter_all, length_fmap; [simpl; lia|].
    apply Forall_forall. by intros j (r & -> & _)%list_elem_of_fmap.
  - rewrite filter_none; [done|].
    apply Forall_forall. intros j (r & -> & _)%list_elem_of_fmap. simpl. congruence.
Qed.

Lemma from_right_pairings_of x r (rs : list row) :
  length (from_right r (Both x <$> rs)) = length (filter (λ y, y = r) rs).
Proof.
  unfold from_right. induction rs as [|y rs IH]; [done|].
  rewrite fmap_cons. destruct (decide (y = r)) as [->|Hne].
  - rewrite !filter_cons_True by done. simpl. by rewrite IH.
  - rewrite !filter_cons_False by (simpl; congruence). done.
Qed.

Lemma from_right_pairings r (ls rs : list row) :
  length (from_right r (l' ← ls; Both l' <$> rs))
  = (length ls * length (filter (λ x, x = r) rs))%nat.
Proof.
  induction ls as [|x ls IH]; [done|]. unfold from_right in *.
  rewrite bind_cons, filter_app, length_app, IH.
  fold (from_right r (Both x <$> rs)). rewrite from_right_pairings_of.
  simpl. lia.
Qed.

Lemma from_left_alone l (ls : list row) :
  length (from_left l (LeftOnly <$> ls)) = length (filter (λ x, x = l) ls).
Proof.
  unfold from_left. induction ls as [|x ls IH]; [done|].
  rewrite fmap_cons. destruct (decide (x = l)) as [->|Hne].
  - rewrite !filter_cons_True by done. simpl. by rewrite IH.
  - rewrite !filter_cons_False by (simpl; congruence). done.
Qed.

Lemma from_right_alone r (rs : list row) :
  length (from_right r (RightOnly <$> rs)) = length (filter (λ x, x = r) rs).
Proof.
  unfold from_right. induction rs as [|x rs IH]; [done|].
  rewrite fmap_cons. destruct (decide (x = r)) as [->|Hne].
  - rewrite !filter_cons_True by done. simpl. by rewrite IH.
  - rewrite !filter_cons_False by (simpl; congruence). done.
Qed.

Lemma from_left_right_only l (rs : list row) : from_left l (RightOnly <$> rs) = [].
Proof.
  apply filter_none, Forall_forall. by intros j (r & -> & _)%list_elem_of_fmap.
Qed.

Lemma from_right_left_only r (ls : list row) : from_right r (LeftOnly <$> ls) = [].
Proof.
  apply filter_none, Forall_forall. by intros j (l & -> & _)%list_elem_of_fmap.
Qed.

(** X7. A spreadsheet row is returned once for every reference record with
    its key, and once when there is none; a reference record is returned once
    for every spreadsheet row with its key, and once when there is none. (A
    row that occurs several times in its list counts that many times.) *)
Theorem times_returned req (x : row) :
  length (from_left x (join_rows req))
  = (length (filter (λ l, l = x) (spreadsheet_rows req))
     * Nat.max 1 (length (with_key (key_of x) (reference_rows req))))%nat
  ∧ length (from_right x (join_rows req))
    = (length (filter (λ r, r = x) (reference_rows req))
       * Nat.max 1 (length (with_key (key_of x) (spreadsheet_rows req))))%nat.
Proof.
  unfold join_rows. rewrite from_left_group, from_right_group.
  rewrite <- (filter_same_key x (spreadsheet_rows req)).
  rewrite <- (filter_same_key x (reference_rows req)).
  unfold join_group.
  destruct (with_key (key_of x) (spreadsheet_rows req)) as [|l ls],
    (with_key (key_of x) (reference_rows req)) as [|r rs].
  - done.
  - rewrite from_left_right_only, from_right_alone. simpl. lia.
  - rewrite from_right_left_only, from_left_alone. simpl. lia.
  - rewrite from_left_pairings, from_right_pairings.
    cbn [length]. lia.
Qed.

(** ** Amounts that are missing, and records that are the same *)

Lemma py_eq_missing a b : a = VNaN ∨ b = VNaN → py_eq a b = false.
Proof. intros [-> | ->]; by destruct a || destruct b. Qed.

Lemma py_eq_same a : a ≠ VNaN → py_eq a a = true.
Proof. destruct a; simpl; intros; by rewrite ?bool_decide_eq_true_2. Qed.

(** X8. A pairing in which an amount is missing on either side, or on both, is
    never reconciled: it is returned as an Amount Mismatch. *)
Theorem missing_amount_mismatch req reconciled unreconciled l r :
  reconcile req = Ok reconciled unreconciled →
  l ∈ spreadsheet_rows req → r ∈ reference_rows req → key_of l = key_of r →
  amount l = VNaN ∨ amount r = VNaN →
  annotated "Amount Mismatch" (merged_row req (Both l r)) ∈ unreconciled
  ∧ ∀ row, row ∈ reconciled →
      ¬ (row !! "amount_excel" = Some (amount l)
         ∧ row !! "amount_db" = Some (amount r)).
Proof.
  intros Hrun Hl Hr Hkey Hmissing.
  destruct (reconcile_Ok _ _ _ Hrun) as (Hok & Hamount & _).
  destruct (returned_rows _ _ _ Hrun) as [Hrec Hunrec].
  pose proof (py_eq_missing _ _ Hmissing) as Hne. split.
  - apply Hunrec. exists (Both l r). split_and!.
    + by apply both_joined.
    + simpl. by rewrite Hne.
    + unfold output_row. simpl. by rewrite Hne.
  - intros row (j & _ & Hcat & ->)%Hrec [Hexcel Hdb].
    destruct (category_both_inv _ _ Hcat) as (l' & r' & -> & Heq); [by left|].
    rewrite output_row_cell in Hexcel, Hdb by done. unfold merged_row in *.
    rewrite (joined_amount_excel _ Hok Hamount) in Hexcel.
    rewrite (joined_amount_db _ Hok Hamount) in Hdb.
    simpl in Hexcel, Hdb. fold (amount l') in Hexcel. fold (amount r') in Hdb.
    injection Hexcel as Hexcel. injection Hdb as Hdb.
    rewrite Hexcel, Hdb, Hne in Heq. done.
Qed.

Lemma missing_amount_mismatch_witness :
  reconcile amounts_missing
  = Ok [] [unreconciled_row 1 "A" VNaN VNaN "Amount Mismatch"]
  ∧ annotated "Amount Mismatch"
      (merged_row amounts_missing
         (Both {[ "id" := VNum 1; "reference" := VStr "A"; "amount" := VNaN ]}
               {[ "id" := VNum 1; "reference" := VStr "A"; "amount" := VNaN ]}))
    ∈ [unreconciled_row 1 "A" VNaN VNaN "Amount Mismatch"].
Proof.
  assert (reconcile amounts_missing
          = Ok [] [unreconciled_row 1 "A" VNaN VNaN "Amount Mismatch"]) as Hrun
    by (vm_compute; reflexivity).
  split; [exact Hrun|].
  apply (missing_amount_mismatch _ _ _ _ _ Hrun);
    [compute_done|compute_done|reflexivity|by left].
Defined.

(** X9. When the spreadsheet rows are the reference records, cut down to the
    three columns, the keys are unique and no amount is missing, everything is
    reconciled: nothing is returned as unreconciled, and every record is in
    the reconciled rows with its amount on both sides. *)
Theorem same_records_reconciled req reconciled unreconciled :
  reconcile req = Ok reconciled unreconciled →
  spreadsheet_rows req = select_cells REQUIRED_COLUMNS <$> reference_rows req →
  NoDup (key_of <$> reference_rows req) →
  (∀ r, r ∈ reference_rows req → amount r ≠ VNaN) →
  unreconciled = []
  ∧ ∀ r, r ∈ reference_rows req →
      ∃ row, row ∈ reconciled
             ∧ row !! "id" = Some (cell r "id")
             ∧ row !! "reference" = Some (cell r "reference")
             ∧ row !! "amount_excel" = Some (amount r)
             ∧ row !! "amount_db" = Some (amount r).
Proof.
  intros Hrun Hsame Hnd Hamounts.
  destruct (reconcile_Ok _ _ _ Hrun) as (Hok & Hamount & _).
  destruct (returned_rows _ _ _ Hrun) as [Hrec Hunrec].
  assert (∀ r c, c ∈ REQUIRED_COLUMNS →
            cell (select_cells REQUIRED_COLUMNS r) c = cell r c) as Hcell
    by (intros; by apply cell_select_cells).
  assert (∀ r, key_of (select_cells REQUIRED_COLUMNS r) = key_of r) as Hkey.
  { intros r. unfold key_of. by rewrite !Hcell by compute_done. }
  assert (∀ r r', r ∈ reference_rows req → r' ∈ reference_rows req →
            key_of r = key_of r' → r = r') as Hinj
    by (intros r r'; apply NoDup_fmap_eq, Hnd).
  assert (∀ j, j ∈ join_rows req → category_of j = Reconciled) as Hall.
  { intros j. unfold join_rows. rewrite Hsame.
    destruct j as [l r|l|r]; simpl.
    - rewrite elem_of_outer_join, elem_of_join_group. simpl.
      intros [[(r' & -> & Hr')%list_elem_of_fmap _] [Hr Hk]].
      rewrite Hkey in Hk. apply symmetry, Hinj in Hk; [|done..]. subst r'.
      unfold amount at 1. rewrite Hcell by compute_done. fold (amount r).
      by rewrite py_eq_same by auto.
    - intros [(r' & -> & Hr')%list_elem_of_fmap Hnone]%left_only_joined.
      destruct (Hnone r' Hr'). by rewrite Hkey.
    - intros [Hr Hnone]%right_only_joined.
      destruct (Hnone (select_cells REQUIRED_COLUMNS r)); [|by rewrite Hkey].
      by apply list_elem_of_fmap_2. }
  split.
  - destruct unreconciled as [|row rows]; [done|].
    destruct (Hunrec row) as [(j & Hj & Hcat & _) _]; [by left|].
    by destruct Hcat; apply Hall.
  - intros r Hr.
    assert (Both (select_cells REQUIRED_COLUMNS r) r ∈ join_rows req) as Hj.
    { unfold join_rows. rewrite Hsame.
      apply both_joined; [by apply list_elem_of_fmap_2|done|apply Hkey]. }
    exists (output_row req (Both (select_cells REQUIRED_COLUMNS r) r)). split.
    { apply Hrec. eexists. split_and!; [done|by apply Hall|done]. }
    rewrite !output_row_cell by done. unfold merged_row.
    rewrite (joined_id _ Hok Hamount), (joined_reference _ Hok Hamount),
      (joined_amount_excel _ Hok Hamount), (joined_amount_db _ Hok Hamount).
    simpl. by rewrite !Hcell by compute_done.
Qed.

Lemma same_records_reconciled_witness :
  reconcile same_records
  = Ok [<["note" := VNaN]> (both_row 1 "A" 100 100);
        <["note" := VStr "late"]> (both_row 2 "B" 50 50);
        <["note" := VNaN]> (both_row 3 "C" 10 10)] []
  ∧ ∀ r, r ∈ reference_rows same_records →
      ∃ row, row ∈ [<["note" := VNaN]> (both_row 1 "A" 100 100);
                    <["note" := VStr "late"]> (both_row 2 "B" 50 50);
                    <["note" := VNaN]> (both_row 3 "C" 10 10)]
             ∧ row !! "id" = Some (cell r "id")
             ∧ row !! "reference" = Some (cell r "reference")
             ∧ row !! "amount_excel" = Some (amount r)
             ∧ row !! "amount_db" = Some (amount r).
Proof.
  assert (reconcile same_records
          = Ok [<["note" := VNaN]> (both_row 1 "A" 100 100);
                <["note" := VStr "late"]> (both_row 2 "B" 50 50);
                <["note" := VNaN]> (both_row 3 "C" 10 10)] []) as Hrun
    by (vm_compute; reflexivity).
  split; [exact Hrun|].
  apply (same_records_reconciled _ _ _ Hrun).
  - vm_compute. reflexivity.
  - compute_done.
  - apply Forall_forall. compute_done.
Defined.

(** ** The order of the rows *)

Lemma bind_Permutation_ext {A B} (f g : A → list B) (l l' : list A) :
  l ≡ₚ l' → (∀ x, f x ≡ₚ g x) → l ≫= f ≡ₚ l' ≫= g.
Proof.
  intros Hl Hfg. rewrite Hl. clear l Hl.
  induction l' as [|x l IH]; [done|]. by rewrite !bind_cons, IH, Hfg.
Qed.

Lemma join_group_Permutation left left' right right' k :
  left ≡ₚ left' → right ≡ₚ right' →
  join_group left right k ≡ₚ join_group left' right' k.
Proof.
  intros Hl Hr. unfold join_group.
  assert (with_key k left ≡ₚ with_key k left') as Hls
    by (unfold with_key; by rewrite Hl).
  assert (with_key k right ≡ₚ with_key k right') as Hrs
    by (unfold with_key; by rewrite Hr).
  destruct (with_key k left) as [|l ls], (with_key k left') as [|l' ls'];
    try (by apply Permutation_nil_cons in Hls);
    try (by symmetry in Hls; apply Permutation_nil_cons in Hls);
    destruct (with_key k right) as [|r rs], (with_key k right') as [|r' rs'];
    try (by apply Permutation_nil_cons in Hrs);
    try (by symmetry in Hrs; apply Permutation_nil_cons in Hrs).
  - done.
  - by rewrite Hrs.
  - by rewrite Hls.
  - apply bind_Permutation_ext; [done|]. intros x. by rewrite Hrs.
Qed.

Lemma outer_join_Permutation left left' right right' :
  left ≡ₚ left' → right ≡ₚ right' →
  outer_join left right ≡ₚ outer_join left' right'.
Proof.
  intros Hl Hr. unfold outer_join. apply bind_Permutation_ext.
  - apply NoDup_Permutation; [apply NoDup_factorize..|].
    intros k. rewrite !elem_of_factorize. by rewrite Hl, Hr.
  - intros k. by apply join_group_Permutation.
Qed.

Lemma frame_columns_Permutation records records' :
  records ≡ₚ records' →
  columns (DataFrame_of_records records) = columns (DataFrame_of_records records').
Proof.
  intros Hperm. simpl. f_equal. apply set_eq. intros c.
  rewrite !elem_of_union_list. setoid_rewrite list_elem_of_fmap.
  by setoid_rewrite Hperm.
Qed.

(** X10. The order of the rows does not matter: two requests whose
    spreadsheet rows are the same up to order, and whose reference records are
    the same up to order, are answered, when both are classified, with the
    same reconciled rows and the same unreconciled rows up to order. *)
Theorem order_irrelevant req req' reconciled unreconciled reconciled' unreconciled' :
  reconcile req = Ok reconciled unreconciled →
  reconcile req' = Ok reconciled' unreconciled' →
  spreadsheet_rows req ≡ₚ spreadsheet_rows req' →
  reference_rows req ≡ₚ reference_rows req' →
  reconciled ≡ₚ reconciled' ∧ unreconciled ≡ₚ unreconciled'.
Proof.
  intros (_ & _ & Hrun)%reconcile_Ok (_ & _ & Hrun')%reconcile_Ok Hl Hr.
  unfold classification, in_reason in *. simplify_eq.
  assert (merged_row req = merged_row req') as ->.
  { unfold merged_row, reference_columns.
    by rewrite (frame_columns_Permutation _ _ Hr). }
  assert (∀ c, in_category c req ≡ₚ in_category c req') as Hcat.
  { intros c. unfold in_category, join_rows.
    by rewrite (outer_join_Permutation _ _ _ _ Hl Hr). }
  by rewrite !Hcat.
Qed.

Lemma order_irrelevant_witness :
  spreadsheet_rows unique_keys ≡ₚ spreadsheet_rows unique_keys_shuffled
  ∧ reference_rows unique_keys ≡ₚ reference_rows unique_keys_shuffled
  ∧ [both_row 1 "A" 100 100] ≡ₚ [both_row 1 "A" 100 100]
  ∧ [unreconciled_row 4 "D" (VNum 7) (VNum 8) "Amount Mismatch";
     unreconciled_row 2 "B" (VNum 50) VNaN "Only in Excel";
     unreconciled_row 3 "C" VNaN (VNum 10) "Only in DB"]
    ≡ₚ [unreconciled_row 4 "D" (VNum 7) (VNum 8) "Amount Mismatch";
        unreconciled_row 2 "B" (VNum 50) VNaN "Only in Excel";
        unreconciled_row 3 "C" VNaN (VNum 10) "Only in DB"].
Proof.
  assert (spreadsheet_rows unique_keys ≡ₚ spreadsheet_rows unique_keys_shuffled)
    as Hl.
  { replace (spreadsheet_rows unique_keys)
      with [record 1 "A" 100; record 2 "B" 50; record 4 "D" 7]
      by (vm_compute; reflexivity).
    replace (spreadsheet_rows unique_keys_shuffled)
      with [record 4 "D" 7; record 1 "A" 100; record 2 "B" 50]
      by (vm_compute; reflexivity).
    solve_Permutation. }
  assert (reference_rows unique_keys ≡ₚ reference_rows unique_keys_shuffled)
    as Hr by (simpl; solve_Permutation).
  split; [exact Hl|]. split; [exact Hr|].
  apply (order_irrelevant unique_keys unique_keys_shuffled);
    first [exact Hl | exact Hr | vm_compute; reflexivity].
Defined.

(** ** Counting the rows *)

Lemma omap_bind_swap {A B C} (f : B → option C) (g : A → list B) (l : list A) :
  omap f (l ≫= g) = l ≫= (λ x, omap f (g x)).
Proof.
  induction l as [|x l IH]; [done|]. by rewrite !bind_cons, omap_app, IH.
Qed.

Lemma omap_Some_fmap {A B} (f : A → B) (g : B → option A) (l : list A) :
  (∀ x, g (f x) = Some x) → omap g (f <$> l) = l.
Proof.
  intros Hg. induction l as [|x l IH]; [done|].
  csimpl. by rewrite Hg, IH.
Qed.

Lemma omap_None_fmap {A B C} (f : A → B) (g : B → option C) (l : list A) :
  (∀ x, g (f x) = None) → omap g (f <$> l) = [].
Proof.
  intros Hg. induction l as [|x l IH]; [done|].
  csimpl. by rewrite Hg, IH.
Qed.

Lemma left_of_group left right k :
  (with_key k right = [] ∨ ∃ r, with_key k right = [r]) →
  omap left_of (join_group left right k) = with_key k left.
Proof.
  unfold join_group. intros [->|[r ->]].
  - destruct (with_key k left); [done|]. by rewrite omap_Some_fmap.
  - destruct (with_key k left) as [|l ls]; [done|].
    generalize (l :: ls). intros ls'. induction ls' as [|x ls' IH]; [done|].
    rewrite bind_cons, omap_app, IH. done.
Qed.

Lemma right_of_group left right k :
  (with_key k left = [] ∨ ∃ l, with_key k left = [l]) →
  omap right_of (join_group left right k) = with_key k right.
Proof.
  unfold join_group. intros [->|[l ->]].
  - destruct (with_key k right); [done|]. by rewrite omap_Some_fmap.
  - destruct (with_key k right) as [|r rs]; [done|].
    rewrite bind_singleton. by rewrite omap_Some_fmap.
Qed.

(** With keys that are unique on the other side, the rows of one side are
    joined once each. *)
Lemma left_rows_once left right :
  NoDup (key_of <$> right) → omap left_of (outer_join left right) ≡ₚ left.
Proof.
  intros Hnd. unfold outer_join. rewrite omap_bind_swap.
  etrans; [|apply (group_by_key
                     (factorize [] ((key_of <$> left) ++ (key_of <$> right))))].
  - apply reflexive_eq, Forall_bind_ext, Forall_forall. intros k _.
    apply left_of_group. by apply with_key_at_most_one.
  - apply NoDup_factorize.
  - intros l Hl. apply elem_of_factorize. split; [|apply not_elem_of_nil].
    apply elem_of_app. left. by apply list_elem_of_fmap_2.
Qed.

Lemma right_rows_once left right :
  NoDup (key_of <$> left) → omap right_of (outer_join left right) ≡ₚ right.
Proof.
  intros Hnd. unfold outer_join. rewrite omap_bind_swap.
  etrans; [|apply (group_by_key
                     (factorize [] ((key_of <$> left) ++ (key_of <$> right))))].
  - apply reflexive_eq, Forall_bind_ext, Forall_forall. intros k _.
    apply right_of_group. by apply with_key_at_most_one.
  - apply NoDup_factorize.
  - intros r Hr. apply elem_of_factorize. split; [|apply not_elem_of_nil].
    apply elem_of_app. right. by apply list_elem_of_fmap_2.
Qed.

Lemma length_left_of js :
  length (omap left_of js)
  = (length (filter (λ j, category_of j = Reconciled) js)
     + length (filter (λ j, category_of j = AmountMismatch) js)
     + length (filter (λ j, category_of j = OnlyInSpreadsheet) js))%nat.
Proof.
  induction js as [|j js IH]; [done|]. rewrite !filter_cons.
  destruct j as [l r|l|r]; csimpl; [destruct (py_eq (amount l) (amount r))|..];
    repeat case_decide; try done; csimpl; rewrite IH; lia.
Qed.

Lemma length_right_of js :
  length (omap right_of js)
  = (length (filter (λ j, category_of j = Reconciled) js)
     + length (filter (λ j, category_of j = AmountMismatch) js)
     + length (filter (λ j, category_of j = OnlyInReference) js))%nat.
Proof.
  induction js as [|j js IH]; [done|]. rewrite !filter_cons.
  destruct j as [l r|l|r]; csimpl; [destruct (py_eq (amount l) (amount r))|..];
    repeat case_decide; try done; csimpl; rewrite IH; lia.
Qed.

Lemma with_reason_in_reason reason reason' c req :
  with_reason reason (in_reason reason' c req)
  = if decide (reason = reason') then in_reason reason' c req else [].
Proof.
  unfold with_reason, in_reason. case_decide as Hreason.
  - subst. apply filter_all, Forall_forall.
    intros row (j & -> & _)%list_elem_of_fmap. apply annotated_reason.
  - apply filter_none, Forall_forall.
    intros row (j & -> & _)%list_elem_of_fmap. simpl.
    rewrite annotated_reason. congruence.
Qed.

Lemma length_with_reason req reconciled unreconciled :
  reconcile req = Ok reconciled unreconciled →
  length reconciled = length (in_category Reconciled req)
  ∧ length (with_reason "Amount Mismatch" unreconciled)
    = length (in_category AmountMismatch req)
  ∧ length (with_reason "Only in Excel" unreconciled)
    = length (in_category OnlyInSpreadsheet req)
  ∧ length (with_reason "Only in DB" unreconciled)
    = length (in_category OnlyInReference req).
Proof.
  intros (_ & _ & Hrec)%reconcile_Ok. unfold classification in Hrec.
  simplify_eq. rewrite length_fmap. split; [done|].
  assert (∀ reason (a b : list row),
            with_reason reason (a ++ b) = with_reason reason a ++ with_reason reason b)
    as Happ by (intros; apply filter_app).
  rewrite !Happ, !with_reason_in_reason.
  repeat (case_decide; try done).
  rewrite ?app_nil_l, ?app_nil_r. unfold in_reason. by rewrite !length_fmap.
Qed.

(** X11. With reference keys that are unique, the rows of the sheet are as
    many as the reconciled rows, the Amount Mismatch rows and the Only in
    Excel rows together; with spreadsheet keys that are unique, the reference
    records are as many as the reconciled rows, the Amount Mismatch rows and
    the Only in DB rows together. *)
Theorem rows_accounted_for req reconciled unreconciled :
  reconcile req = Ok reconciled unreconciled →
  (NoDup (key_of <$> reference_rows req) →
   length (spreadsheet_rows req)
   = (length reconciled + length (with_reason "Amount Mismatch" unreconciled)
      + length (with_reason "Only in Excel" unreconciled))%nat)
  ∧ (NoDup (key_of <$> spreadsheet_rows req) →
     length (reference_rows req)
     = (length reconciled + length (with_reason "Amount Mismatch" unreconciled)
        + length (with_reason "Only in DB" unreconciled))%nat).
Proof.
  intros (-> & -> & -> & ->)%length_with_reason. unfold in_category, join_rows.
  split; intros Hnd.
  - by rewrite <- length_left_of, left_rows_once.
  - by rewrite <- length_right_of, right_rows_once.
Qed.

Lemma rows_accounted_for_witness :
  NoDup (key_of <$> reference_rows key_twice)
  ∧ length (spreadsheet_rows key_twice)
    = (length [both_row 1 "A" 100 100]
       + length (with_reason "Amount Mismatch"
                   [unreconciled_row 1 "A" (VNum 150) (VNum 100) "Amount Mismatch"])
       + length (with_reason "Only in Excel"
                   [unreconciled_row 1 "A" (VNum 150) (VNum 100) "Amount Mismatch"]))%nat.
Proof.
  assert (NoDup (key_of <$> reference_rows key_twice)) as Hnd by compute_done.
  split; [exact Hnd|].
  by apply (rows_accounted_for key_twice); [vm_compute|].
Defined.

(** ** The errors and what causes them *)


(** X13. The file is looked at only for a request whose records pass the
    check of the first record, and then in this order: an extension that is
    not .xls, .xlsx or .xlsm is refused, naming the extension; a file that is
    not a workbook is refused as not valid or corrupted; any other failure to
    read it is refused with its message; a sheet without one of the three
    columns is refused. Each of these answers is given in its case only. *)
Theorem file_errors req :
  (∀ ext, reconcile req = BadRequest ("Unsupported file format: " +:+ ext)
          ↔ ∃ f, file req = Some f ∧ records_accepted req
                 ∧ file_extension f = ext ∧ FILE_ENGINES !! ext = None)
  ∧ (reconcile req = BadRequest "The file is not a valid Excel file or is corrupted."
     ↔ ∃ f, file req = Some f ∧ records_accepted req
            ∧ is_Some (FILE_ENGINES !! file_extension f)
            ∧ content f = BadZipFile)
  ∧ (∀ e, reconcile req
          = BadRequest ("An error occurred while reading the Excel file: " +:+ e)
          ↔ ∃ f, file req = Some f ∧ records_accepted req
                 ∧ is_Some (FILE_ENGINES !! file_extension f)
                 ∧ content f = Unreadable e)
  ∧ (reconcile req
     = BadRequest "Invalid Excel format. Expected columns: id, reference, amount"
     ↔ ∃ f df, file req = Some f ∧ records_accepted req
               ∧ is_Some (FILE_ENGINES !! file_extension f)
               ∧ content f = Sheet df
               ∧ ¬ Forall (λ c, c ∈ columns df) REQUIRED_COLUMNS).
Proof.
  unfold records_accepted.
  destruct req as [[[ext sheet]|] db].
  2:{ split_and!; intros; (split; [try done|]); cbn [file db_data]; naive_solver. }
  destruct db as [| |[|first rest]].
  - split_and!; intros; (split; [try done|]); cbn [file db_data]; naive_solver.
  - split_and!; intros; (split; [try done|]); cbn [file db_data]; naive_solver.
  - split_and!; intros; (split; [try done|]); cbn [file db_data]; naive_solver.
  - unfold reconcile, has_required. cbn [file db_data file_extension content].
    destruct (decide (Forall (λ c, c ∈ dom first) REQUIRED_COLUMNS)) as [Hfirst|Hfirst].
    + rewrite (bool_decide_eq_true_2 _ Hfirst). cbn [negb].
      destruct (FILE_ENGINES !! ext) as [engine|] eqn:Hext.
      * rewrite bool_decide_eq_false_2 by done.
        destruct sheet as [df| |];
          [case_bool_decide as Hcols; cbn [negb];
             [destruct (merge _ _ _ _); [|unfold classify]|]|..];
          (split_and!; intros; (split; [try done|]));
          try (intros (f & [= <-] & _ & ?); cbn in *; naive_solver);
          try (intros (f & df' & [= <-] & _ & ?); cbn in *; naive_solver);
          try (cbn; intros ?; simplify_eq); try (intros _);
          repeat eexists; cbn; eauto.
      * rewrite bool_decide_eq_true_2 by done.
        assert (¬ is_Some (FILE_ENGINES !! ext)) as Hnone
          by (rewrite Hext; by intros [? ?]).
        split_and!; intros; (split; [try done|]);
          try (intros (f & [= <-] & _ & ?); cbn in *; naive_solver);
          try (intros (f & df' & [= <-] & _ & ?); cbn in *; naive_solver);
          try (cbn; intros ?; simplify_eq); repeat eexists; cbn; eauto.
    + rewrite (bool_decide_eq_false_2 _ Hfirst). cbn [negb].
      split_and!; intros; (split; [try done|]); naive_solver.
Qed.

(** ** The field Mismatch Reason *)

(** X14. When no reference record has a field named Mismatch Reason, no
    reconciled row has one, while every unreconciled row has it: the field
    tells the two kinds of rows apart. *)
Theorem reason_in_unreconciled_only req reconciled unreconciled :
  reconcile req = Ok reconciled unreconciled →
  (∀ r, r ∈ reference_rows req → r !! "Mismatch Reason" = None) →
  (∀ row, row ∈ reconciled → row !! "Mismatch Reason" = None)
  ∧ (∀ row, row ∈ unreconciled → is_Some (row !! "Mismatch Reason")).
Proof.
  intros Hrun Hnone. destruct (reconcile_Ok _ _ _ Hrun) as (Hok & Hamount & _).
  destruct (returned_rows _ _ _ Hrun) as [Hrec Hunrec]. split.
  - intros row (j & _ & Hcat & ->)%Hrec. unfold output_row. rewrite Hcat.
    apply not_elem_of_dom. unfold merged_row. rewrite dom_joined.
    rewrite (left_labels_required _ Hamount).
    rewrite !not_elem_of_union, elem_of_singleton, !elem_of_list_to_set.
    split_and!; [done|by rewrite !elem_of_cons, elem_of_nil; naive_solver|].
    unfold right_labels.
    intros (c & Hc & [Hk Hin]%elem_of_non_key)%list_elem_of_fmap.
    assert (c = "Mismatch Reason") as ->.
    { destruct (decide (c = "amount")) as [->|Hne]; [done|].
      by rewrite label_other in Hc. }
    apply elem_of_frame_columns in Hin as (r & Hr & [v Hv]).
    by rewrite (Hnone r Hr) in Hv.
  - intros row (j & _ & Hcat & ->)%Hunrec. unfold output_row.
    destruct (category_of j); [done|..]; rewrite annotated_reason; by eexists.
Qed.

Lemma reason_in_unreconciled_only_witness :
  both_row 1 "A" 100 100 !! "Mismatch Reason" = None
  ∧ is_Some (unreconciled_row 2 "B" (VNum 50) VNaN "Only in Excel"
               !! "Mismatch Reason").
Proof.
  assert (reconcile unique_keys
          = Ok [both_row 1 "A" 100 100]
               [unreconciled_row 4 "D" (VNum 7) (VNum 8) "Amount Mismatch";
                unreconciled_row 2 "B" (VNum 50) VNaN "Only in Excel";
                unreconciled_row 3 "C" VNaN (VNum 10) "Only in DB"]) as Hrun
    by (vm_compute; reflexivity).
  assert (∀ r, r ∈ reference_rows unique_keys → r !! "Mismatch Reason" = None)
    as Hnone.
  { apply Forall_forall. compute_done. }
  destruct (reason_in_unreconciled_only _ _ _ Hrun Hnone) as [Hrec Hunrec].
  split; [apply Hrec; by left|apply Hunrec; right; by left].
Defined.
